(** * Antigravity quota aggregation: a shallow embedding

    Source: [internal/api/handlers/management/antigravity_quota.go].

    The handler lists the stored credentials, keeps the Antigravity ones that
    carry an access token, resolves one [AccountQuota] per kept account
    (token refresh, primary quota endpoints, header probe) and tallies the
    results into one [AntigravityQuotaResponse].

    Conventions of the embedding:
    - Go strings are [string] (sequences of bytes); [len], slicing and
      [strings.Contains] are byte-wise, as in Go.
    - Go [int], [int64] are [Z]; the one product that can overflow
      ([time.Duration(expiresIn) * time.Second]) has its wrap-around written
      out.
    - [float64] is IEEE-754 binary64, as [spec_float] with 53 bits of
      precision.
    - A Go [(value, error)] pair is a [result].
    - Effects (HTTP round trips, clock reads, the credential store) are
      threaded through a state monad over [World]; what the outside answers
      is fixed by an [Env].  [log.Printf] calls have no effect on any result
      and are left out. *)

From Stdlib Require Import ZArith String Ascii List Lia SpecFloat DecimalString Permutation.
From stdpp Require Import base option list gmap strings.

Local Open Scope Z_scope.
Local Open Scope string_scope.
Local Open Scope list_scope.

(** ** Strings *)

(** [strings.Contains(s, substr)]. *)
Fixpoint Contains (s substr : string) : bool :=
  String.prefix substr s ||
  match s with
  | EmptyString => false
  | String _ rest => Contains rest substr
  end.

(** A string literal between double quotes, as it appears inside a Go raw
    string. *)
Definition quoted (s : string) : string :=
  String (ascii_of_nat 34) s +:+ String (ascii_of_nat 34) EmptyString.

(** [fmt.Sprintf("%d", n)]. *)
Definition Sprintf_d (n : Z) : string := NilZero.string_of_int (Z.to_int n).

(** ** float64 *)

Definition float64 := spec_float.

Definition f64_prec : Z := 53.
Definition f64_emax : Z := 1024.

(** [float64(n)] for an integer [n]: rounded to nearest, ties to even. *)
Definition float64_of_int (n : Z) : float64 := binary_normalize f64_prec f64_emax n 0 false.
Definition f64_mul : float64 -> float64 -> float64 := SFmul f64_prec f64_emax.
Definition f64_div : float64 -> float64 -> float64 := SFdiv f64_prec f64_emax.

(** The constant [100] (also written [100.0]) as a float64. *)
Definition f64_100 : float64 := float64_of_int 100.

(** The float64 nearest to the decimal fraction [n/d]: what
    [strconv.ParseFloat] yields for a short decimal literal. *)
Definition f64_decimal (n d : Z) : float64 := f64_div (float64_of_int n) (float64_of_int d).

(** ** Go results *)

Inductive result (A : Type) : Type :=
| Ok (a : A)
| Err (msg : string).
Arguments Ok {A} a.
Arguments Err {A} msg.

(** ** Data model *)

Definition Time := Z.  (* an instant, in nanoseconds since the Unix epoch *)

(** [ModelQuota]: quota information for a specific model. *)
Record ModelQuota := {
  Model : string;
  DisplayName : string;
  RemainingPercent : float64;
  ResetTime : string
}.

(** [AccountQuota]: quota information for a single account. *)
Record AccountQuota := {
  Email : string;
  ProjectID : string;
  Status : string;            (* "active", "inactive", "error" *)
  ModelQuotas : list ModelQuota;
  Error : string;
  LastUpdated : Time
}.

(** [AntigravityQuotaResponse]: the report. *)
Record AntigravityQuotaResponse := {
  TotalAccounts : Z;
  ActiveAccounts : Z;
  InactiveAccounts : Z;
  ErrorAccounts : Z;
  Accounts : list AccountQuota;
  ResponseLastUpdated : Time
}.

(** [tokenRefreshResponse]. *)
Record tokenRefreshResponse := {
  AccessToken : string;
  ExpiresIn : Z;
  TokenType : string;
  RefreshToken : string
}.

(** One entry of [fetchAvailableModelsResponseArray.Models] (format 1), with
    its [RateLimit] fields flattened. *)
Record arrayModel := {
  am_Model : string;
  RpmLimit : Z;
  TpmLimit : Z;
  RemainingRpm : Z;
  RemainingTpm : Z;
  ResetTimeStamp : string
}.

Record fetchAvailableModelsResponseArray := {
  ArrayModels : list arrayModel
}.

(** The [QuotaInfo] block of format 2; both fields are pointers. *)
Record quotaInfo := {
  RemainingFraction : option float64;
  QuotaResetTime : option string
}.

(** Format 2: [Models] is a Go map; it is held here as the sequence of its
    entries in the order in which [range] visits them (Go leaves that order
    unspecified).  [QuotaInfo] is a pointer, [None] when nil. *)
Record fetchAvailableModelsResponseMap := {
  MapModels : list (string * option quotaInfo)
}.

(** Values of a [map[string]any]. *)
Inductive any :=
| VNil
| VBool (b : bool)
| VInt64 (n : Z)
| VString (s : string).

(** The type assertion [v.(string)] on a map lookup: [Some s] when the key is
    present and holds a string. *)
Definition asString (v : option any) : option string :=
  match v with
  | Some (VString s) => Some s
  | _ => None
  end.

(** The fields of a stored credential that the handler reads; [Metadata] is
    [None] for a nil map. *)
Record Auth := {
  ID : string;
  Provider : string;
  Metadata : option (gmap string any)
}.

(** ** HTTP, the clock and the credential store *)

(** The body handed to [http.NewRequestWithContext]. *)
Inductive Payload :=
| RawBody (s : string)                       (* [strings.NewReader(s)] *)
| FormBody (fields : list (string * string)) (* [url.Values], sent as [data.Encode()] *)
| GenerateBody (model project requestId sessionId : string).
    (* the minimal generateContent request: one user message "hi",
       temperature 0.1, maxOutputTokens 1, userAgent "antigravity" *)

Record Request := {
  Method : string;
  URL : string;
  ReqHeader : list (string * string);
  ReqBody : Payload
}.

(** A response as the handler observes it: status, headers, and what
    [io.ReadAll(resp.Body)] returns (the bytes read, and the read error if
    any). *)
Record Response := {
  StatusCode : Z;
  Header : list (string * string);
  BodyData : string;
  BodyErr : option string
}.

(** [validHeaderFieldByte]: the bytes of an HTTP token, that is letters,
    digits and the marks [!#$%&'*+-.^_`|~]. *)
Definition validHeaderFieldByte (c : ascii) : bool :=
  let n := nat_of_ascii c in
  ((48 <=? n) && (n <=? 57) || (65 <=? n) && (n <=? 90) || (97 <=? n) && (n <=? 122)
   || existsb (Nat.eqb n) [33; 35; 36; 37; 38; 39; 42; 43; 45; 46; 94; 95; 96; 124; 126])%nat.

Fixpoint validHeaderField (s : string) : bool :=
  match s with
  | EmptyString => true
  | String c rest => validHeaderFieldByte c && validHeaderField rest
  end.

(** The loop of [CanonicalMIMEHeaderKey]: the first letter and every letter
    after a dash in upper case, every other letter in lower case. *)
Fixpoint canonicalize (upper : bool) (s : string) : string :=
  match s with
  | EmptyString => EmptyString
  | String c rest =>
      let n := nat_of_ascii c in
      let c' :=
        (if upper && (97 <=? n) && (n <=? 122) then ascii_of_nat (n - 32)
         else if negb upper && (65 <=? n) && (n <=? 90) then ascii_of_nat (n + 32)
         else c)%nat in
      String c' (canonicalize (Nat.eqb (nat_of_ascii c') 45) rest)
  end.

(** [CanonicalMIMEHeaderKey]: a name that is not a token is returned as it
    is. *)
Definition CanonicalMIMEHeaderKey (s : string) : string :=
  if validHeaderField s then canonicalize true s else s.

(** [resp.Header.Get(key)]: the first value stored under the canonical form of
    [key], [""] when absent.  [Header] lists the header fields in the order
    received; the transport stores each of them under the canonical form of
    its name, so a field sent as [x-ratelimit-limit] is found under
    ["X-RateLimit-Limit"]. *)
Fixpoint Header_Get (h : list (string * string)) (key : string) : string :=
  match h with
  | [] => ""
  | (k, v) :: rest =>
      if String.eqb (CanonicalMIMEHeaderKey k) (CanonicalMIMEHeaderKey key) then v
      else Header_Get rest key
  end.

(** One round trip of [httpClient.Do]: the request and its outcome. *)
Record Exchange := {
  xreq : Request;
  xres : result Response
}.

(** What is outside the handler and mutable: the HTTP exchanges made so far
    (oldest first), the credential store ([None] when [h.authManager] is nil,
    otherwise its records in [List()] order), and the number of clock reads. *)
Record World := {
  exchanges : list Exchange;
  authManager : option (list Auth);
  ticks : nat
}.

(** What the outside answers.  Library functions whose code is not part of the
    handler are taken as they are. *)
Record Env := {
  (* [httpClient.Do(req)], which may depend on everything exchanged before *)
  httpDo : list Exchange -> Request -> result Response;
  (* the value of the n-th [time.Now()] *)
  clock : nat -> Time;
  (* which of the goroutines still running delivers its result next *)
  sched : nat -> nat;
  (* [time.Parse(time.RFC3339, s)], [None] on error *)
  time_Parse_RFC3339 : string -> option Time;
  (* [t.Format(time.RFC3339)] *)
  time_Format_RFC3339 : Time -> string;
  (* [json.Unmarshal(body, &apiRespArray)], [None] on error *)
  json_Unmarshal_Array : string -> option fetchAvailableModelsResponseArray;
  (* [json.Unmarshal(body, &apiRespMap)], [None] on error *)
  json_Unmarshal_Map : string -> option fetchAvailableModelsResponseMap;
  (* [json.NewDecoder(resp.Body).Decode(&tokenResp)] *)
  json_Decode_Token : Response -> result tokenRefreshResponse;
  (* [fmt.Sscanf(s, "%d", &n)]: [Some n] when it returns no error *)
  Sscanf_d : string -> option Z
}.

(** ** The state monad of the handler *)

Definition M (A : Type) : Type := World -> A * World.

Definition ret {A} (a : A) : M A := fun w => (a, w).

Definition bind {A B} (m : M A) (k : A -> M B) : M B :=
  fun w => let (a, w') := m w in k a w'.

Notation "x <- m ;; k" := (bind m (fun x => k))
  (at level 100, m at next level, right associativity).
Notation "m ;;; k" := (bind m (fun _ => k))
  (at level 100, right associativity).

(** [for _, x := range l { s = body(x, s) }]. *)
Fixpoint rangeLoop {A S} (body : A -> S -> M S) (l : list A) (s : S) : M S :=
  match l with
  | [] => ret s
  | x :: rest => s' <- body x s ;; rangeLoop body rest s'
  end.

Definition httpClient_Do (E : Env) (req : Request) : M (result Response) :=
  fun w =>
    let r := httpDo E (exchanges w) req in
    (r, {| exchanges := exchanges w ++ [{| xreq := req; xres := r |}];
           authManager := authManager w;
           ticks := ticks w |}).

Definition time_Now (E : Env) : M Time :=
  fun w =>
    (clock E (ticks w),
     {| exchanges := exchanges w; authManager := authManager w; ticks := S (ticks w) |}).

Definition getAuthManager : M (option (list Auth)) :=
  fun w => (authManager w, w).

Definition setAuthManager (auths : list Auth) : M unit :=
  fun w => (tt, {| exchanges := exchanges w; authManager := Some auths; ticks := ticks w |}).

(** [h.authManager.GetByID(id)]. *)
Definition GetByID (auths : list Auth) (id : string) : option Auth :=
  List.find (fun a => String.eqb (ID a) id) auths.

(** [h.authManager.Update(ctx, auth)]: the record with that ID is replaced. *)
Definition Update (auths : list Auth) (auth : Auth) : list Auth :=
  List.map (fun a => if String.eqb (ID a) (ID auth) then auth else a) auths.

(** ** The quota endpoint client *)

Definition defaultAntigravityUserAgent : string := "antigravity/1.104.0 darwin/arm64".

Definition antigravityClientID : string :=
  "1071006060591-tmhssin2h21lcre235vtolojh4g403ep.apps.googleusercontent.com".
Definition antigravityClientSecret : string := "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".

(** The header set of both the quota call and the generation call. *)
Definition antigravityHeaders (accessToken : string) : list (string * string) :=
  [ ("Authorization", "Bearer " +:+ accessToken);
    ("Content-Type", "application/json");
    ("User-Agent", defaultAntigravityUserAgent);
    ("X-Goog-Api-Client", "google-cloud-sdk vscode_cloudeshelleditor/0.1");
    ("Client-Metadata",
     "{" +:+ quoted "ideType" +:+ ":" +:+ quoted "IDE_UNSPECIFIED" +:+ ","
         +:+ quoted "platform" +:+ ":" +:+ quoted "PLATFORM_UNSPECIFIED" +:+ ","
         +:+ quoted "pluginType" +:+ ":" +:+ quoted "GEMINI" +:+ "}") ].

(** [getDisplayName]: model names to display names. *)
Definition getDisplayName (modelName : string) : string :=
  if String.eqb modelName "gemini-2.5-pro" then "Gemini 2.5 Pro"
  else if String.eqb modelName "gemini-2.5-flash" then "Gemini 2.5 Flash"
  else if String.eqb modelName "gemini-2.0-flash" then "Gemini 2.0 Flash"
  else if String.eqb modelName "gemini-2.0-flash-lite" then "Gemini 2.0 Flash Lite"
  else if String.eqb modelName "gemini-2.0-flash-exp" then "Gemini 2.0 Flash Exp"
  else if String.eqb modelName "gemini-exp-1206" then "Gemini Exp"
  else if String.eqb modelName "gemini-claude-sonnet-4-5"
          || String.eqb modelName "gemini-claude-sonnet-4-5-thinking" then "Claude Sonnet 4.5"
  else if String.eqb modelName "gemini-claude-opus-4-5"
          || String.eqb modelName "gemini-claude-opus-4-5-thinking" then "Claude Opus 4.5"
  else if String.eqb modelName "imagen-3.0-generate-002" then "Imagen 3"
  else modelName.

(** The loop body of [buildQuotasFromArray]: one model of format 1. *)
Definition arrayQuota (model : arrayModel) : option ModelQuota :=
  if (RpmLimit model =? 0)%Z then None   (* skip models with no rate limit *)
  else
    let remainingPercent :=
      f64_mul (f64_div (float64_of_int (RemainingRpm model)) (float64_of_int (RpmLimit model)))
              f64_100 in
    Some {| Model := am_Model model;
            DisplayName := getDisplayName (am_Model model);
            RemainingPercent := remainingPercent;
            ResetTime := ResetTimeStamp model |}.

(** The loop body of [buildQuotasFromMap]: one entry of format 2. *)
Definition mapQuota (entry : string * option quotaInfo) : option ModelQuota :=
  let (modelName, modelInfo) := entry in
  match modelInfo with
  | None => None                      (* [QuotaInfo == nil] *)
  | Some info =>
      match RemainingFraction info with
      | None => None                  (* [RemainingFraction == nil] *)
      | Some remainingFraction =>
          let remainingPercent := f64_mul remainingFraction f64_100 in
          let resetTime := match QuotaResetTime info with
                           | Some t => t
                           | None => ""
                           end in
          Some {| Model := modelName;
                  DisplayName := getDisplayName modelName;
                  RemainingPercent := remainingPercent;
                  ResetTime := resetTime |}
      end
  end.

(** [for ... { if skip { continue }; modelQuotas = append(modelQuotas, q) }]. *)
Fixpoint collectQuotas {A} (f : A -> option ModelQuota) (l : list A) : list ModelQuota :=
  match l with
  | [] => []
  | x :: rest =>
      match f x with
      | Some q => q :: collectQuotas f rest
      | None => collectQuotas f rest
      end
  end.

(** The three candidate endpoints, in the order in which they are tried. *)
Definition endpoints : list string :=
  [ "https://daily-cloudcode-pa.googleapis.com/v1internal:fetchAvailableModels";
    "https://daily-cloudcode-pa.sandbox.googleapis.com/v1internal:fetchAvailableModels";
    "https://cloudcode-pa.googleapis.com/v1internal:fetchAvailableModels" ].

(** The models probed by the header fallback, in order. *)
Definition modelsToCheck : list string :=
  [ "gemini-2.5-pro";
    "gemini-2.5-flash";
    "gemini-2.0-flash";
    "gemini-2.0-flash-lite";
    "gemini-exp-1206";
    "gemini-claude-sonnet-4-5";
    "gemini-claude-opus-4-5";
    "imagen-3.0-generate-002" ].

(** The request of [callQuotaEndpoint]: a POST of [{}]. *)
Definition quotaRequest (endpoint accessToken : string) : Request :=
  {| Method := "POST";
     URL := endpoint;
     ReqHeader := antigravityHeaders accessToken;
     ReqBody := RawBody "{}" |}.

(** The request of [extractQuotaForModel]. *)
Definition generateRequest (email projectID accessToken modelName : string)
    (requestNano sessionNano : Time) : Request :=
  let baseURL :=
    if Contains projectID "daily" || Contains email "daily"
    then "https://daily-cloudcode-pa.googleapis.com"
    else "https://cloudcode-pa.googleapis.com" in
  {| Method := "POST";
     URL := baseURL +:+ "/v1internal:generateContent";
     ReqHeader := antigravityHeaders accessToken;
     ReqBody := GenerateBody modelName projectID
                  ("quota-check-" +:+ Sprintf_d requestNano)
                  ("quota-check-" +:+ Sprintf_d sessionNano) |}.

(** The request of [refreshAccessToken]. *)
Definition refreshRequest (refreshToken : string) : Request :=
  {| Method := "POST";
     URL := "https://oauth2.googleapis.com/token";
     ReqHeader := [ ("Host", "oauth2.googleapis.com");
                    ("Content-Type", "application/x-www-form-urlencoded") ];
     ReqBody := FormBody [ ("client_id", antigravityClientID);
                           ("client_secret", antigravityClientSecret);
                           ("refresh_token", refreshToken);
                           ("grant_type", "refresh_token") ] |}.

Section Handler.

Variable E : Env.

(** [buildQuotasFromArray]. *)
Definition buildQuotasFromArray (email projectID : string)
    (apiResp : fetchAvailableModelsResponseArray) : M (result AccountQuota) :=
  let modelQuotas := collectQuotas arrayQuota (ArrayModels apiResp) in
  now <- time_Now E ;;
  ret (Ok {| Email := email;
             ProjectID := projectID;
             Status := "active";
             ModelQuotas := modelQuotas;
             Error := "";
             LastUpdated := now |}).

(** [buildQuotasFromMap]. *)
Definition buildQuotasFromMap (email projectID : string)
    (apiResp : fetchAvailableModelsResponseMap) : M (result AccountQuota) :=
  let modelQuotas := collectQuotas mapQuota (MapModels apiResp) in
  now <- time_Now E ;;
  ret (Ok {| Email := email;
             ProjectID := projectID;
             Status := "active";
             ModelQuotas := modelQuotas;
             Error := "";
             LastUpdated := now |}).

(** The first 500 bytes of the body, followed by dots when it is longer. *)
Definition responsePreview (respBody : string) : string :=
  if (500 <? String.length respBody)%nat
  then String.substring 0 500 respBody +:+ "..."
  else respBody.

(** What [callQuotaEndpoint] does with a response whose body has been read. *)
Definition handleQuotaResponse (email projectID : string) (statusCode : Z)
    (respBody : string) : M (result AccountQuota) :=
  if (statusCode =? 401)%Z then ret (Err "unauthorized: access token expired")
  else if (statusCode =? 403)%Z then ret (Err ("forbidden: " +:+ respBody))
  else if (statusCode =? 404)%Z then ret (Err "404: endpoint not found")
  else if negb (statusCode =? 200)%Z then
    ret (Err ("API returned " +:+ Sprintf_d statusCode +:+ ": " +:+ respBody))
  else
    let parseError : M (result AccountQuota) :=
      ret (Err ("parse response: failed to parse as array or map format. Response: "
                +:+ responsePreview respBody)) in
    (* then the map format *)
    let tryMap : M (result AccountQuota) :=
      match json_Unmarshal_Map E respBody with
      | Some apiRespMap =>
          if (0 <? length (MapModels apiRespMap))%nat
          then buildQuotasFromMap email projectID apiRespMap
          else parseError
      | None => parseError
      end in
    (* the array format first *)
    match json_Unmarshal_Array E respBody with
    | Some apiRespArray =>
        if (0 <? length (ArrayModels apiRespArray))%nat
        then buildQuotasFromArray email projectID apiRespArray
        else tryMap
    | None => tryMap
    end.

(** [callQuotaEndpoint]: one call to the quota endpoint. *)
Definition callQuotaEndpoint (endpoint email projectID accessToken : string)
    : M (result AccountQuota) :=
  r <- httpClient_Do E (quotaRequest endpoint accessToken) ;;
  match r with
  | Err err => ret (Err ("execute request: " +:+ err))
  | Ok resp =>
      match BodyErr resp with
      | Some err => ret (Err ("read response: " +:+ err))
      | None => handleQuotaResponse email projectID (StatusCode resp) (BodyData resp)
      end
  end.

(** The display-name switch written out inside [extractQuotaForModel]. *)
Definition probeDisplayName (modelName : string) : string :=
  let displayName := modelName in
  if String.eqb modelName "gemini-2.5-pro" then "Gemini 2.5 Pro"
  else if String.eqb modelName "gemini-2.5-flash" then "Gemini 2.5 Flash"
  else if String.eqb modelName "gemini-2.0-flash" then "Gemini 2.0 Flash"
  else if String.eqb modelName "gemini-2.0-flash-lite" then "Gemini 2.0 Flash Lite"
  else if String.eqb modelName "gemini-2.0-flash-exp" then "Gemini 2.0 Flash Exp"
  else if String.eqb modelName "gemini-exp-1206" then "Gemini Exp"
  else if String.eqb modelName "gemini-claude-sonnet-4-5"
          || String.eqb modelName "gemini-claude-sonnet-4-5-thinking" then "Claude Sonnet 4.5"
  else if String.eqb modelName "gemini-claude-opus-4-5"
          || String.eqb modelName "gemini-claude-opus-4-5-thinking" then "Claude Opus 4.5"
  else if String.eqb modelName "imagen-3.0-generate-002" then "Imagen 3"
  else displayName.

(** The part of [extractQuotaForModel] after the round trip: the rate-limit
    headers of the response, whatever its status and body. *)
Definition headerQuota (modelName : string) (resp : Response) : option ModelQuota :=
  let limitHeader := Header_Get (Header resp) "X-RateLimit-Limit" in
  let remainingHeader := Header_Get (Header resp) "X-RateLimit-Remaining" in
  let resetHeader := Header_Get (Header resp) "X-RateLimit-Reset" in
  if String.eqb limitHeader "" || String.eqb remainingHeader "" then None
  else
    match Sscanf_d E limitHeader with
    | None => None
    | Some limit =>
        if (limit =? 0)%Z then None
        else
          match Sscanf_d E remainingHeader with
          | None => None
          | Some remaining =>
              let remainingPercent :=
                f64_mul (f64_div (float64_of_int remaining) (float64_of_int limit)) f64_100 in
              Some {| Model := modelName;
                      DisplayName := probeDisplayName modelName;
                      RemainingPercent := remainingPercent;
                      ResetTime := resetHeader |}
          end
    end.

(** [extractQuotaForModel]: one minimal generateContent call; the quota is
    read from the response headers.  [Ok None] is the source's [nil, nil]. *)
Definition extractQuotaForModel (email projectID accessToken modelName : string)
    : M (result (option ModelQuota)) :=
  requestNano <- time_Now E ;;
  sessionNano <- time_Now E ;;
  r <- httpClient_Do E
         (generateRequest email projectID accessToken modelName requestNano sessionNano) ;;
  match r with
  | Err err => ret (Err ("execute request: " +:+ err))
  | Ok resp => ret (Ok (headerQuota modelName resp))
  end.

(** The loop body of [fetchQuotaFromHeaders]. *)
Definition probeModel (email projectID accessToken modelName : string)
    (modelQuotas : list ModelQuota) : M (list ModelQuota) :=
  r <- extractQuotaForModel email projectID accessToken modelName ;;
  match r with
  | Err _ => ret modelQuotas                       (* [continue] *)
  | Ok (Some quota) => ret (modelQuotas ++ [quota])
  | Ok None => ret modelQuotas
  end.

(** [fetchQuotaFromHeaders]: the header-probe fallback. *)
Definition fetchQuotaFromHeaders (email projectID accessToken : string)
    : M (result (list ModelQuota)) :=
  modelQuotas <- rangeLoop (probeModel email projectID accessToken) modelsToCheck [] ;;
  if (length modelQuotas =? 0)%nat
  then ret (Err "no quota information extracted from headers")
  else ret (Ok modelQuotas).

(** The end of [fetchQuotaForAccount], reached when the loop is left without
    a result. *)
Definition allEndpointsFailed (email projectID : string) (lastError : option string)
    : M AccountQuota :=
  let errorMsg := match lastError with
                  | Some err => err
                  | None => "Failed to fetch quota"
                  end in
  now <- time_Now E ;;
  ret {| Email := email;
         ProjectID := projectID;
         Status := "error";
         ModelQuotas := [];
         Error := errorMsg;
         LastUpdated := now |}.

(** The loop of [fetchQuotaForAccount] over the candidates still to try. *)
Fixpoint tryEndpoints (email projectID accessToken : string) (candidates : list string)
    (lastError : option string) : M AccountQuota :=
  match candidates with
  | [] => allEndpointsFailed email projectID lastError
  | endpoint :: rest =>
      r <- callQuotaEndpoint endpoint email projectID accessToken ;;
      match r with
      | Ok quota => ret quota
      | Err err =>
          (* a 401 (token expired): the other endpoints are not tried *)
          if Contains err "unauthorized" || Contains err "access token expired" then
            now <- time_Now E ;;
            ret {| Email := email;
                   ProjectID := projectID;
                   Status := "inactive";
                   ModelQuotas := [];
                   Error := "Access token expired. Please re-login: CLIProxyAPI -antigravity-login";
                   LastUpdated := now |}
          (* a 403: the fallback method (quota from generateContent headers) *)
          else if Contains err "forbidden" || Contains err "banned" then
            f <- fetchQuotaFromHeaders email projectID accessToken ;;
            match f with
            | Ok quotas =>
                now <- time_Now E ;;
                ret {| Email := email;
                       ProjectID := projectID;
                       Status := "active";
                       ModelQuotas := quotas;
                       Error := "";
                       LastUpdated := now |}
            | Err fallbackErr =>
                now <- time_Now E ;;
                ret {| Email := email;
                       ProjectID := projectID;
                       Status := "inactive";
                       ModelQuotas := [];
                       Error := "Access forbidden and fallback failed: " +:+ fallbackErr;
                       LastUpdated := now |}
            end
          (* not a 404: [break] *)
          else if negb (Contains err "404") then
            allEndpointsFailed email projectID (Some err)
          (* a 404: the next endpoint *)
          else tryEndpoints email projectID accessToken rest (Some err)
      end
  end.

(** [fetchQuotaForAccount]: quota information for a single account. *)
Definition fetchQuotaForAccount (email projectID accessToken : string) : M AccountQuota :=
  tryEndpoints email projectID accessToken endpoints None.

(** ** Token lifecycle *)

(** [refreshAccessToken]: the new access token and its lifetime in seconds. *)
Definition refreshAccessToken (refreshToken : string) : M (result (string * Z)) :=
  r <- httpClient_Do E (refreshRequest refreshToken) ;;
  match r with
  | Err err => ret (Err ("execute refresh request: " +:+ err))
  | Ok resp =>
      if negb (StatusCode resp =? 200)%Z then
        ret (Err ("refresh token failed: status " +:+ Sprintf_d (StatusCode resp)
                  +:+ ": " +:+ BodyData resp))
      else
        match json_Decode_Token E resp with
        | Err err => ret (Err ("parse refresh response: " +:+ err))
        | Ok tokenResp => ret (Ok (AccessToken tokenResp, ExpiresIn tokenResp))
        end
  end.

(** A signed 64-bit product or sum, wrapped around. *)
Definition wrap64 (n : Z) : Z := (n + 2 ^ 63) mod 2 ^ 64 - 2 ^ 63.

(** [updateAuthToken]: the new token and its expiry are written to the stored
    record. *)
Definition updateAuthToken (authID newAccessToken : string) (expiresIn : Z) : M unit :=
  manager <- getAuthManager ;;
  match manager with
  | None => ret tt
  | Some auths =>
      match GetByID auths authID with
      | None => ret tt
      | Some auth =>
          let metadata := match Metadata auth with
                          | Some m => m
                          | None => ∅
                          end in
          stamp <- time_Now E ;;
          now <- time_Now E ;;
          let newExpiry :=
            time_Format_RFC3339 E (now + wrap64 (expiresIn * 1000000000))%Z in
          let metadata :=
            <["expired" := VString newExpiry]>
              (<["timestamp" := VInt64 (stamp / 1000000)%Z]>
                 (<["expires_in" := VInt64 expiresIn]>
                    (<["access_token" := VString newAccessToken]> metadata))) in
          setAuthManager
            (Update auths {| ID := ID auth; Provider := Provider auth;
                             Metadata := Some metadata |})
      end
  end.

(** ** Credential selection *)

(** The fields kept for each selected account. *)
Record antigravityAuth := {
  email : string;
  projectID : string;
  accessToken : string;
  refreshToken : string;
  authID : string;
  expired : bool
}.

(** [auth.Metadata[key].(string)], [""] when the map is nil, the key absent or
    the value not a string. *)
Definition metadataString (auth : Auth) (key : string) : string :=
  match Metadata auth with
  | Some m => match asString (m !! key) with
              | Some s => s
              | None => ""
              end
  | None => ""
  end.

(** The provider check: the [Provider] field or the metadata [type]. *)
Definition isAntigravity (auth : Auth) : bool :=
  if String.eqb (Provider auth) "antigravity" then true
  else match Metadata auth with
       | Some m => match asString (m !! "type") with
                   | Some t => String.eqb t "antigravity"
                   | None => false
                   end
       | None => false
       end.

(** The expiry check: [now.After(expiredTime)] when the marker parses. *)
Definition checkExpired (expiredStr : string) : M bool :=
  if String.eqb expiredStr "" then ret false
  else
    now <- time_Now E ;;
    match time_Parse_RFC3339 E expiredStr with
    | None => ret false
    | Some expiredTime => ret (expiredTime <? now)%Z
    end.

(** The body of the loop over [allAuths]. *)
Definition selectAuth (auth : Auth) (antigravityAuths : list antigravityAuth)
    : M (list antigravityAuth) :=
  if negb (isAntigravity auth) then ret antigravityAuths
  else
    isExpired <- checkExpired (metadataString auth "expired") ;;
    (* skip if no access token *)
    if String.eqb (metadataString auth "access_token") "" then ret antigravityAuths
    else
      ret (antigravityAuths ++
           [ {| email := metadataString auth "email";
                projectID := metadataString auth "project_id";
                accessToken := metadataString auth "access_token";
                refreshToken := metadataString auth "refresh_token";
                authID := ID auth;
                expired := isExpired |} ]).

(** ** The aggregator *)

(** The goroutine started for one account: it sends exactly one result. *)
Definition quotaWorker (a : antigravityAuth) : M AccountQuota :=
  if expired a && negb (String.eqb (refreshToken a) "") then
    r <- refreshAccessToken (refreshToken a) ;;
    match r with
    | Err err =>
        now <- time_Now E ;;
        ret {| Email := email a;
               ProjectID := projectID a;
               Status := "inactive";
               ModelQuotas := [];
               Error := "Token refresh failed: " +:+ err;
               LastUpdated := now |}
    | Ok (newToken, expiresIn) =>
        updateAuthToken (authID a) newToken expiresIn ;;;
        fetchQuotaForAccount (email a) (projectID a) newToken
    end
  else if expired a then
    now <- time_Now E ;;
    ret {| Email := email a;
           ProjectID := projectID a;
           Status := "inactive";
           ModelQuotas := [];
           Error := "Access token expired and no refresh token available";
           LastUpdated := now |}
  else
    fetchQuotaForAccount (email a) (projectID a) (accessToken a).

(** The order in which the goroutines deliver: at each step the scheduler
    picks one of those still running.  Each goroutine is run to completion
    when it is picked; interleavings of their requests are not modelled. *)
Fixpoint completionOrder {A} (n : nat) (running : list A) : list A :=
  match n with
  | O => []
  | S n' =>
      match running with
      | [] => []
      | first :: _ =>
          let i := (sched E n' mod length running)%nat in
          nth i running first :: completionOrder n' (delete i running)
      end
  end.

(** [for quota := range results { accounts = append(accounts, *quota) }]. *)
Definition collect (a : antigravityAuth) (accounts : list AccountQuota)
    : M (list AccountQuota) :=
  quota <- quotaWorker a ;;
  ret (accounts ++ [quota]).

(** The statistics loop: the three counters after one more account. *)
Definition countStatus (counts : Z * Z * Z) (account : AccountQuota) : Z * Z * Z :=
  let '(activeAccounts, inactiveAccounts, errorAccounts) := counts in
  if String.eqb (Status account) "active" then
    (activeAccounts + 1, inactiveAccounts, errorAccounts)%Z
  else if String.eqb (Status account) "inactive" then
    (activeAccounts, inactiveAccounts + 1, errorAccounts)%Z
  else if String.eqb (Status account) "error" then
    (activeAccounts, inactiveAccounts, errorAccounts + 1)%Z
  else counts.

(** [json.Marshal] on the report: [encoding/json] refuses a float that is
    infinite or not a number, and every other field of the report encodes. *)
Definition encodableFloat (f : float64) : bool :=
  match f with
  | S754_zero _ | S754_finite _ _ _ => true
  | S754_infinity _ | S754_nan => false
  end.

Definition encodable (response : AntigravityQuotaResponse) : bool :=
  forallb (fun account =>
             forallb (fun quota => encodableFloat (RemainingPercent quota))
                     (ModelQuotas account))
          (Accounts response).

(** What the handler writes with [c.JSON].  [JSONUnwritten] is
    [c.JSON(200, response)] on a value that [json.Marshal] refuses: no report
    is written. *)
Inductive HandlerResponse :=
| JSON503 (error : string)
| JSON200 (response : AntigravityQuotaResponse)
| JSONUnwritten (response : AntigravityQuotaResponse).

(** [GetAntigravityQuota]: quota information for all Antigravity accounts. *)
Definition GetAntigravityQuota : M HandlerResponse :=
  manager <- getAuthManager ;;
  match manager with
  | None => ret (JSON503 "auth manager unavailable")
  | Some allAuths =>
      antigravityAuths <- rangeLoop selectAuth allAuths [] ;;
      accounts <- rangeLoop collect
                    (completionOrder (length antigravityAuths) antigravityAuths) [] ;;
      let totalAccounts := Z.of_nat (length accounts) in
      let '(activeAccounts, inactiveAccounts, errorAccounts) :=
        fold_left countStatus accounts (0, 0, 0)%Z in
      now <- time_Now E ;;
      let response := {| TotalAccounts := totalAccounts;
                         ActiveAccounts := activeAccounts;
                         InactiveAccounts := inactiveAccounts;
                         ErrorAccounts := errorAccounts;
                         Accounts := accounts;
                         ResponseLastUpdated := now |} in
      if encodable response then ret (JSON200 response)
      else ret (JSONUnwritten response)
  end.

End Handler.

(** ** Reading a run off its exchanges

    The definitions below are not part of the handler: they describe, from
    the recorded exchanges alone, what a call of [fetchQuotaForAccount] did.
    The lemmas of the next part tie them to the code. *)

(** One more clock read. *)
Definition tick (w : World) : World :=
  {| exchanges := exchanges w; authManager := authManager w; ticks := S (ticks w) |}.

(** The three tests that [fetchQuotaForAccount] makes on an error text. *)
Definition unauthorizedText (err : string) : bool :=
  Contains err "unauthorized" || Contains err "access token expired".

Definition forbiddenText (err : string) : bool :=
  Contains err "forbidden" || Contains err "banned".

(** The error texts on which the loop goes on to the next candidate. *)
Definition advances (err : string) : bool :=
  negb (unauthorizedText err) && negb (forbiddenText err) && Contains err "404".

(** An [AccountQuota] from its parts. *)
Definition mkQuota (email projectID status : string) (quotas : list ModelQuota)
    (err : string) (now : Time) : AccountQuota :=
  {| Email := email; ProjectID := projectID; Status := status;
     ModelQuotas := quotas; Error := err; LastUpdated := now |}.

Definition reloginMessage : string :=
  "Access token expired. Please re-login: CLIProxyAPI -antigravity-login".

Definition fallbackFailedMessage : string :=
  "Access forbidden and fallback failed: no quota information extracted from headers".

(** The exchange was a call to one of the three candidate endpoints. *)
Definition toCandidate (x : Exchange) : Prop := In (URL (xreq x)) endpoints.

(** The exchange was answered in full (headers and body) with the status. *)
Definition answered (status : Z) (x : Exchange) : Prop :=
  exists resp, xres x = Ok resp /\ BodyErr resp = None /\ StatusCode resp = status.

(** The exchange was answered with a 403 whose body is [body]. *)
Definition answered403 (body : string) (x : Exchange) : Prop :=
  exists resp, xres x = Ok resp /\ BodyErr resp = None /\ StatusCode resp = 403
               /\ BodyData resp = body.

Section Verdict.

Variable E : Env.

(** The exchange that a quota call adds in world [w]. *)
Definition quotaExchange (endpoint accessToken : string) (w : World) : Exchange :=
  {| xreq := quotaRequest endpoint accessToken;
     xres := httpDo E (exchanges w) (quotaRequest endpoint accessToken) |}.

Definition record (x : Exchange) (w : World) : World :=
  {| exchanges := exchanges w ++ [x]; authManager := authManager w; ticks := ticks w |}.

(** The model quotas that a 200 body yields: array format first, then map
    format; [None] when neither has a model. *)
Definition parsedQuotas (respBody : string) : option (list ModelQuota) :=
  let viaMap :=
    match json_Unmarshal_Map E respBody with
    | Some apiRespMap =>
        if (0 <? length (MapModels apiRespMap))%nat
        then Some (collectQuotas mapQuota (MapModels apiRespMap))
        else None
    | None => None
    end in
  match json_Unmarshal_Array E respBody with
  | Some apiRespArray =>
      if (0 <? length (ArrayModels apiRespArray))%nat
      then Some (collectQuotas arrayQuota (ArrayModels apiRespArray))
      else viaMap
  | None => viaMap
  end.

(** The outcome of one quota call, from what the round trip returned: the
    error text, or the model quotas of the account. *)
Definition endpointVerdict (r : result Response) : result (list ModelQuota) :=
  match r with
  | Err err => Err ("execute request: " +:+ err)
  | Ok resp =>
      match BodyErr resp with
      | Some err => Err ("read response: " +:+ err)
      | None =>
          let statusCode := StatusCode resp in
          let respBody := BodyData resp in
          if (statusCode =? 401)%Z then Err "unauthorized: access token expired"
          else if (statusCode =? 403)%Z then Err ("forbidden: " +:+ respBody)
          else if (statusCode =? 404)%Z then Err "404: endpoint not found"
          else if negb (statusCode =? 200)%Z then
            Err ("API returned " +:+ Sprintf_d statusCode +:+ ": " +:+ respBody)
          else
            match parsedQuotas respBody with
            | Some quotas => Ok quotas
            | None => Err ("parse response: failed to parse as array or map format. Response: "
                           +:+ responsePreview respBody)
            end
      end
  end.

(** The quota call failed with an error text on which the loop goes on. *)
Definition advancesOn (x : Exchange) : bool :=
  match endpointVerdict (xres x) with
  | Err err => advances err
  | Ok _ => false
  end.

(** The response carries valid rate-limit headers: both present, a limit that
    parses and is not zero, a remaining count that parses. *)
Definition validRateLimit (resp : Response) : bool :=
  let limitHeader := Header_Get (Header resp) "X-RateLimit-Limit" in
  let remainingHeader := Header_Get (Header resp) "X-RateLimit-Remaining" in
  negb (String.eqb limitHeader "") && negb (String.eqb remainingHeader "") &&
  match Sscanf_d E limitHeader, Sscanf_d E remainingHeader with
  | Some limit, Some _ => negb (limit =? 0)%Z
  | _, _ => false
  end.

Definition hasRateLimit (x : Exchange) : bool :=
  match xres x with
  | Ok resp => validRateLimit resp
  | Err _ => false
  end.

(** The model quota that one probe exchange contributes. *)
Definition probeQuota (x : Exchange) : option ModelQuota :=
  match ReqBody (xreq x), xres x with
  | GenerateBody modelName _ _ _, Ok resp => headerQuota E modelName resp
  | _, _ => None
  end.

(** The exchanges of one header probe: one generation call per model. *)
Definition Probes (email projectID accessToken : string) (models : list string)
    (ps : list Exchange) : Prop :=
  Forall2 (fun modelName x =>
             exists requestNano sessionNano,
               xreq x = generateRequest email projectID accessToken modelName
                          requestNano sessionNano)
          models ps.

(** [Run candidates lastError new quota]: the loop of [fetchQuotaForAccount],
    entered with these candidates, can make the exchanges [new] and return
    [quota]. *)
Inductive Run (email projectID accessToken : string)
    : list string -> option string -> list Exchange -> AccountQuota -> Prop :=
| Run_exhausted lastError now :
    Run email projectID accessToken [] lastError []
      (mkQuota email projectID "error" []
         (match lastError with Some err => err | None => "Failed to fetch quota" end) now)
| Run_success endpoint rest lastError x quotas now :
    xreq x = quotaRequest endpoint accessToken ->
    endpointVerdict (xres x) = Ok quotas ->
    Run email projectID accessToken (endpoint :: rest) lastError [x]
      (mkQuota email projectID "active" quotas "" now)
| Run_unauthorized endpoint rest lastError x err now :
    xreq x = quotaRequest endpoint accessToken ->
    endpointVerdict (xres x) = Err err ->
    unauthorizedText err = true ->
    Run email projectID accessToken (endpoint :: rest) lastError [x]
      (mkQuota email projectID "inactive" [] reloginMessage now)
| Run_fallback endpoint rest lastError x err ps now :
    xreq x = quotaRequest endpoint accessToken ->
    endpointVerdict (xres x) = Err err ->
    unauthorizedText err = false ->
    forbiddenText err = true ->
    Probes email projectID accessToken modelsToCheck ps ->
    collectQuotas probeQuota ps <> [] ->
    Run email projectID accessToken (endpoint :: rest) lastError (x :: ps)
      (mkQuota email projectID "active" (collectQuotas probeQuota ps) "" now)
| Run_fallback_failed endpoint rest lastError x err ps now :
    xreq x = quotaRequest endpoint accessToken ->
    endpointVerdict (xres x) = Err err ->
    unauthorizedText err = false ->
    forbiddenText err = true ->
    Probes email projectID accessToken modelsToCheck ps ->
    collectQuotas probeQuota ps = [] ->
    Run email projectID accessToken (endpoint :: rest) lastError (x :: ps)
      (mkQuota email projectID "inactive" [] fallbackFailedMessage now)
| Run_break endpoint rest lastError x err now :
    xreq x = quotaRequest endpoint accessToken ->
    endpointVerdict (xres x) = Err err ->
    unauthorizedText err = false ->
    forbiddenText err = false ->
    Contains err "404" = false ->
    Run email projectID accessToken (endpoint :: rest) lastError [x]
      (mkQuota email projectID "error" [] err now)
| Run_next endpoint rest lastError x err new quota :
    xreq x = quotaRequest endpoint accessToken ->
    endpointVerdict (xres x) = Err err ->
    advances err = true ->
    Run email projectID accessToken rest (Some err) new quota ->
    Run email projectID accessToken (endpoint :: rest) lastError (x :: new) quota.

(** What follows a quota call in a run is fixed by its verdict. *)
Definition followsVerdict (email projectID accessToken : string) (x : Exchange) (post : list Exchange) (quota : AccountQuota)
    : Prop :=
  match endpointVerdict (xres x) with
  | Ok quotas =>
      post = [] /\ exists now, quota = mkQuota email projectID "active" quotas "" now
  | Err err =>
      if unauthorizedText err then
        post = [] /\
        exists now, quota = mkQuota email projectID "inactive" [] reloginMessage now
      else if forbiddenText err then
        Probes email projectID accessToken modelsToCheck post /\
        exists now,
          quota = match collectQuotas probeQuota post with
                  | [] => mkQuota email projectID "inactive" [] fallbackFailedMessage now
                  | quotas => mkQuota email projectID "active" quotas "" now
                  end
      else if Contains err "404" then
        (post = [] /\ exists now, quota = mkQuota email projectID "error" [] err now) \/
        (exists y post', post = y :: post' /\ toCandidate y)
      else
        post = [] /\ exists now, quota = mkQuota email projectID "error" [] err now
  end.

(** The error text with which a run ends when every call advanced. *)
Definition exhaustedText (qs : list Exchange) (lastError : option string) : string :=
  match last qs, lastError with
  | Some x, _ => match endpointVerdict (xres x) with
                 | Err err => err
                 | Ok _ => ""
                 end
  | None, Some err => err
  | None, None => "Failed to fetch quota"
  end.

(** The shape of a run: quota calls [qs] to a prefix of the candidates, in
    order, then the exchanges [ps] of at most one header probe; the loop goes
    on after a call exactly when its error text advances and a candidate is
    left. *)
Definition Shape (email projectID accessToken : string) (candidates : list string) (lastError : option string)
    (qs ps : list Exchange) (quota : AccountQuota) : Prop :=
  (length qs <= length candidates)%nat /\
  (candidates <> [] -> qs <> []) /\
  map xreq qs =
    map (fun endpoint => quotaRequest endpoint accessToken)
        (firstn (length qs) candidates) /\
  (ps = [] \/ Probes email projectID accessToken modelsToCheck ps) /\
  (forall i x, nth_error qs i = Some x ->
     ((S i < length qs)%nat <->
      advancesOn x = true /\ (S i < length candidates)%nat)) /\
  (Forall (fun x => advancesOn x = true) qs ->
   length qs = length candidates /\ ps = [] /\
   exists now,
     quota = mkQuota email projectID "error" [] (exhaustedText qs lastError) now).

End Verdict.

(** ** Sample environments

    Concrete answers of the outside, used to run the handler on examples. *)

(** A response received in full. *)
Definition sampleResponse (status : Z) (headers : list (string * string)) (body : string)
    : result Response :=
  Ok {| StatusCode := status; Header := headers; BodyData := body; BodyErr := None |}.

(** A stand-in for [fmt.Sscanf(s, "%d", &n)] on unsigned decimal numerals. *)
Fixpoint sampleDigits (s : string) (acc : option Z) : option Z :=
  match s with
  | EmptyString => acc
  | String c rest =>
      let n := nat_of_ascii c in
      if ((48 <=? n) && (n <=? 57))%nat
      then sampleDigits rest
             (Some (10 * (match acc with Some a => a | None => 0 end)
                    + Z.of_nat (n - 48))%Z)
      else acc
  end.

Definition sampleScan (s : string) : option Z := sampleDigits s None.

(** A map-format body with one model at remaining fraction 0.4, one without
    quota info and one without a remaining fraction. *)
Definition sampleMapBody : fetchAvailableModelsResponseMap :=
  {| MapModels :=
       [ ("gemini-2.5-pro",
          Some {| RemainingFraction := Some (f64_decimal 4 10);
                  QuotaResetTime := Some "2030-01-01T00:00:00Z" |});
         ("gemini-2.5-flash", None);
         ("gemini-2.0-flash",
          Some {| RemainingFraction := None; QuotaResetTime := None |}) ] |}.

(** The outside, scripted: [quota] answers the quota call per endpoint,
    [generate] the generation call per model.  The clock advances by one
    nanosecond per read from 2023-11-14T22:13:20Z; the scheduler lets the
    goroutine started last deliver first; the only timestamp that
    parses is ["2020-01-01T00:00:00Z"]; the body ["map"] decodes as
    [sampleMapBody]. *)
Definition sampleEnv (quota generate : string -> result Response) : Env :=
  {| httpDo := fun _ req =>
       match ReqBody req with
       | RawBody _ => quota (URL req)
       | GenerateBody modelName _ _ _ => generate modelName
       | FormBody _ => Err "connection refused"
       end;
     clock := fun n => (1700000000000000000 + Z.of_nat n)%Z;
     sched := fun n => n;
     time_Parse_RFC3339 := fun s =>
       if String.eqb s "2020-01-01T00:00:00Z" then Some 1577836800000000000%Z else None;
     time_Format_RFC3339 := fun _ => "2023-11-14T23:13:20Z";
     json_Unmarshal_Array := fun _ => None;
     json_Unmarshal_Map := fun body =>
       if String.eqb body "map" then Some sampleMapBody else None;
     json_Decode_Token := fun _ => Err "EOF";
     Sscanf_d := sampleScan |}.

Definition sampleWorld (auths : list Auth) : World :=
  {| exchanges := []; authManager := Some auths; ticks := O |}.

(** No rate-limit headers on any generation call. *)
Definition sampleNoHeaders (modelName : string) : result Response :=
  sampleResponse 200 [] "{}".

(** Rate-limit headers on two models of the probe list, the first on a 429;
    the header names are spelt as a server may send them. *)
Definition sampleTwoHeaders (modelName : string) : result Response :=
  if String.eqb modelName "gemini-2.5-pro" then
    sampleResponse 429 [ ("x-ratelimit-limit", "100"); ("X-RATELIMIT-REMAINING", "25");
                         ("X-RateLimit-Reset", "60s") ] ""
  else if String.eqb modelName "gemini-exp-1206" then
    sampleResponse 200 [ ("x-ratelimit-limit", "50"); ("x-ratelimit-remaining", "50") ] "{}"
  else sampleResponse 200 [] "{}".

(** The first candidate answers 401 and reading its body fails with [err];
    every other candidate answers 200 with the body ["map"]. *)
Definition sampleUnreadable (err : string) (endpoint : string) : result Response :=
  if String.eqb endpoint (hd "" endpoints) then
    Ok {| StatusCode := 401; Header := []; BodyData := ""; BodyErr := Some err |}
  else sampleResponse 200 [] "map".

(** The candidates answer, in order, with the given statuses and bodies. *)
Fixpoint sampleScript (answers : list (Z * string)) (candidates : list string)
    (endpoint : string) : result Response :=
  match answers, candidates with
  | (status, body) :: answers', candidate :: candidates' =>
      if String.eqb endpoint candidate then sampleResponse status [] body
      else sampleScript answers' candidates' endpoint
  | _, _ => Err "no such host"
  end.

(** A stored Antigravity credential. *)
Definition sampleAuth (id email token refresh expiry : string) : Auth :=
  {| ID := id;
     Provider := "antigravity";
     Metadata :=
       Some (<["email" := VString email]>
               (<["project_id" := VString "project-1"]>
                  (<["access_token" := VString token]>
                     (<["refresh_token" := VString refresh]>
                        (<["expired" := VString expiry]> ∅))))) |}.

(** A store with four records: a usable account, one without access token,
    one expired without refresh token, and one of another provider. *)
Definition sampleStore : list Auth :=
  [ sampleAuth "auth-1" "a@example.com" "token-a" "refresh-a" "";
    sampleAuth "auth-2" "b@example.com" "" "refresh-b" "";
    sampleAuth "auth-3" "c@example.com" "token-c" "" "2020-01-01T00:00:00Z";
    {| ID := "auth-4"; Provider := "gemini";
       Metadata := Some (<["access_token" := VString "token-d"]> ∅) |} ].

(** ** Results *)

(** The status is one of the three documented values. *)
Definition validStatus (quota : AccountQuota) : Prop :=
  Status quota = "active" \/ Status quota = "inactive" \/ Status quota = "error".

(** A result for the account ([email], [projectID]), with a valid status. *)
Definition resultFor (email projectID : string) (quota : AccountQuota) : Prop :=
  validStatus quota /\ Email quota = email /\ ProjectID quota = projectID.

(** The stored records that take part in the resolution: Antigravity records
    with a non-empty access token. *)
Definition eligible (auth : Auth) : bool :=
  isAntigravity auth && negb (String.eqb (metadataString auth "access_token") "").

(** The selected entry [a] was made from the stored record [auth]. *)
Definition selectedFrom (auth : Auth) (a : antigravityAuth) : Prop :=
  email a = metadataString auth "email" /\
  projectID a = metadataString auth "project_id" /\
  accessToken a = metadataString auth "access_token" /\
  refreshToken a = metadataString auth "refresh_token" /\
  authID a = ID auth.

(** The account quota [quota] is the result for the stored record [auth]. *)
Definition accountOf (quota : AccountQuota) (auth : Auth) : Prop :=
  validStatus quota /\
  Email quota = metadataString auth "email" /\
  ProjectID quota = metadataString auth "project_id".

(** ** Further notions used by the properties *)

(** The model names that [getDisplayName] recognises. *)
Definition knownModels : list string :=
  [ "gemini-2.5-pro"; "gemini-2.5-flash"; "gemini-2.0-flash"; "gemini-2.0-flash-lite";
    "gemini-2.0-flash-exp"; "gemini-exp-1206";
    "gemini-claude-sonnet-4-5"; "gemini-claude-sonnet-4-5-thinking";
    "gemini-claude-opus-4-5"; "gemini-claude-opus-4-5-thinking";
    "imagen-3.0-generate-002" ].

(** The model quota that [buildQuotasFromArray] makes of a model whose limit
    is not zero. *)
Definition arrayEntry (model : arrayModel) : ModelQuota :=
  {| Model := am_Model model;
     DisplayName := getDisplayName (am_Model model);
     RemainingPercent :=
       f64_mul (f64_div (float64_of_int (RemainingRpm model))
                        (float64_of_int (RpmLimit model))) f64_100;
     ResetTime := ResetTimeStamp model |}.

(** An array-format body: one model with a limit, one without, one whose name
    is not recognised. *)
Definition sampleArrayBody : fetchAvailableModelsResponseArray :=
  {| ArrayModels :=
       [ {| am_Model := "gemini-2.5-pro"; RpmLimit := 100; TpmLimit := 1000;
            RemainingRpm := 25; RemainingTpm := 900; ResetTimeStamp := "2030-01-01T00:00:00Z" |};
         {| am_Model := "gemini-2.0-flash"; RpmLimit := 0; TpmLimit := 0;
            RemainingRpm := 0; RemainingTpm := 0; ResetTimeStamp := "" |};
         {| am_Model := "text-model-x"; RpmLimit := 60; TpmLimit := 0;
            RemainingRpm := 60; RemainingTpm := 0; ResetTimeStamp := "" |} ] |}.

(** [sampleEnv] where, in addition, the body ["array"] decodes as
    [sampleArrayBody], the token endpoint answers every refresh with a 200,
    and its body decodes to a one-hour token ["fresh-token"]. *)
Definition sampleEnv2 (quota generate : string -> result Response) : Env :=
  let E := sampleEnv quota generate in
  {| httpDo := fun history req =>
       match ReqBody req with
       | FormBody _ => sampleResponse 200 [] "token"
       | _ => httpDo E history req
       end;
     clock := clock E;
     sched := sched E;
     time_Parse_RFC3339 := time_Parse_RFC3339 E;
     time_Format_RFC3339 := time_Format_RFC3339 E;
     json_Unmarshal_Array := fun body =>
       if String.eqb body "array" then Some sampleArrayBody else None;
     json_Unmarshal_Map := json_Unmarshal_Map E;
     json_Decode_Token := fun _ =>
       Ok {| AccessToken := "fresh-token"; ExpiresIn := 3600;
             TokenType := "Bearer"; RefreshToken := "" |};
     Sscanf_d := Sscanf_d E |}.

(** The model that a generation request asks for. *)
Definition requestModel (req : Request) : option string :=
  match ReqBody req with
  | GenerateBody modelName _ _ _ => Some modelName
  | _ => None
  end.

(** The address of the generation call for an account. *)
Definition probeURL (email projectID : string) : string :=
  (if Contains projectID "daily" || Contains email "daily"
   then "https://daily-cloudcode-pa.googleapis.com"
   else "https://cloudcode-pa.googleapis.com") +:+ "/v1internal:generateContent".

(** The request is a POST that carries the account's bearer token and goes to
    a candidate quota endpoint or to the account's generation address. *)
Definition accountRequest (email projectID accessToken : string) (req : Request) : Prop :=
  Method req = "POST" /\
  ReqHeader req = antigravityHeaders accessToken /\
  (In (URL req) endpoints \/ URL req = probeURL email projectID).

(** The outcome of [refreshAccessToken], from what the round trip returned. *)
Definition refreshVerdict (E : Env) (r : result Response) : result (string * Z) :=
  match r with
  | Err err => Err ("execute refresh request: " +:+ err)
  | Ok resp =>
      if negb (StatusCode resp =? 200)%Z then
        Err ("refresh token failed: status " +:+ Sprintf_d (StatusCode resp)
             +:+ ": " +:+ BodyData resp)
      else
        match json_Decode_Token E resp with
        | Err err => Err ("parse refresh response: " +:+ err)
        | Ok tokenResp => Ok (AccessToken tokenResp, ExpiresIn tokenResp)
        end
  end.

(** The exchange that a refresh adds in world [w]. *)
Definition refreshExchange (E : Env) (refreshToken : string) (w : World) : Exchange :=
  {| xreq := refreshRequest refreshToken;
     xres := httpDo E (exchanges w) (refreshRequest refreshToken) |}.

(** [auth.Metadata[key]], [None] when the map is nil or the key absent. *)
Definition metadataLookup (auth : Auth) (key : string) : option any :=
  match Metadata auth with
  | Some m => m !! key
  | None => None
  end.

(** A selected account whose token is expired and that has a refresh token. *)
Definition sampleExpired : antigravityAuth :=
  {| email := "a@example.com"; projectID := "project-1"; accessToken := "stale-token";
     refreshToken := "refresh-a"; authID := "auth-1"; expired := true |}.

(** The number of accounts with the given status. *)
Definition countOf (status : string) (accounts : list AccountQuota) : Z :=
  Z.of_nat (length (List.filter (fun quota => String.eqb (Status quota) status) accounts)).

(** The shape of a delivered account quota: an active one has no error text;
    any other has an error text and no model quotas. *)
Definition wellFormed (quota : AccountQuota) : Prop :=
  (Status quota = "active" /\ Error quota = "") \/
  ((Status quota = "inactive" \/ Status quota = "error") /\
   Error quota <> "" /\ ModelQuotas quota = []).




(** * Properties *)

(** ** Strings *)

Lemma Contains_prefix s substr :
  String.prefix substr s = true -> Contains s substr = true.
Proof. destruct s; simpl; intros ->; reflexivity. Qed.

Lemma Contains_append_r pre s substr :
  Contains s substr = true -> Contains (pre +:+ s) substr = true.
Proof.
  induction pre as [|c pre IH]; simpl; intros H; [exact H|].
  rewrite (IH H). apply orb_true_r.
Qed.

Lemma probeDisplayName_eq modelName : probeDisplayName modelName = getDisplayName modelName.
Proof. reflexivity. Qed.

(** ** Collected quotas *)

Lemma collectQuotas_app {A} (f : A -> option ModelQuota) l1 l2 :
  collectQuotas f (l1 ++ l2) = collectQuotas f l1 ++ collectQuotas f l2.
Proof.
  induction l1 as [|a l1 IH]; simpl; [reflexivity|].
  destruct (f a); simpl; rewrite IH; reflexivity.
Qed.

Lemma collectQuotas_length {A} (f : A -> option ModelQuota) l :
  length (collectQuotas f l) =
  length (List.filter (fun a => match f a with Some _ => true | None => false end) l).
Proof.
  induction l as [|a l IH]; simpl; [reflexivity|].
  destruct (f a); simpl; congruence.
Qed.

Lemma collectQuotas_In {A} (f : A -> option ModelQuota) l q :
  In q (collectQuotas f l) <-> exists a, In a l /\ f a = Some q.
Proof.
  induction l as [|a l IH]; simpl.
  - split; [tauto|]. intros (? & [] & _).
  - destruct (f a) eqn:Hf; simpl; rewrite IH; split.
    + intros [<-|(b & Hb & Hq)]; eauto.
    + intros (b & [<-|Hb] & Hq); [left; congruence|right; eauto].
    + intros (b & Hb & Hq); eauto.
    + intros (b & [<-|Hb] & Hq); [congruence|eauto].
Qed.

(** ** One quota call *)

Section Calls.

Variable E : Env.

Lemma handleQuotaResponse_run email projectID resp w :
  BodyErr resp = None ->
  handleQuotaResponse E email projectID (StatusCode resp) (BodyData resp) w =
  match endpointVerdict E (Ok resp) with
  | Err err => (Err err, w)
  | Ok quotas =>
      (Ok (mkQuota email projectID "active" quotas "" (clock E (ticks w))), tick w)
  end.
Proof.
  intros Hbody. unfold handleQuotaResponse, endpointVerdict, parsedQuotas.
  rewrite Hbody.
  destruct (StatusCode resp =? 401)%Z; [reflexivity|].
  destruct (StatusCode resp =? 403)%Z; [reflexivity|].
  destruct (StatusCode resp =? 404)%Z; [reflexivity|].
  destruct (StatusCode resp =? 200)%Z; simpl; [|reflexivity].
  destruct (json_Unmarshal_Array E (BodyData resp)) as [a|];
    [destruct (0 <? length (ArrayModels a))%nat; [reflexivity|]|];
    (destruct (json_Unmarshal_Map E (BodyData resp)) as [m|];
     [destruct (0 <? length (MapModels m))%nat|]; reflexivity).
Qed.

(** [callQuotaEndpoint] makes one exchange and returns its verdict. *)
Lemma callQuotaEndpoint_run endpoint email projectID accessToken w :
  callQuotaEndpoint E endpoint email projectID accessToken w =
  let x := quotaExchange E endpoint accessToken w in
  match endpointVerdict E (xres x) with
  | Err err => (Err err, record x w)
  | Ok quotas =>
      (Ok (mkQuota email projectID "active" quotas "" (clock E (ticks w))),
       tick (record x w))
  end.
Proof.
  unfold callQuotaEndpoint, bind, httpClient_Do, quotaExchange. simpl.
  destruct (httpDo E (exchanges w) (quotaRequest endpoint accessToken)) as [resp|err];
    [|reflexivity].
  destruct (BodyErr resp) as [err|] eqn:Hbody.
  - simpl. rewrite Hbody. reflexivity.
  - rewrite (handleQuotaResponse_run _ _ _ _ Hbody).
    destruct (endpointVerdict E (Ok resp)); reflexivity.
Qed.

(** [extractQuotaForModel] reads the clock twice and makes one exchange. *)
Lemma extractQuotaForModel_run email projectID accessToken modelName w :
  extractQuotaForModel E email projectID accessToken modelName w =
  let req := generateRequest email projectID accessToken modelName
               (clock E (ticks w)) (clock E (S (ticks w))) in
  let r := httpDo E (exchanges w) req in
  (match r with
   | Err err => Err ("execute request: " +:+ err)
   | Ok resp => Ok (headerQuota E modelName resp)
   end,
   record {| xreq := req; xres := r |} (tick (tick w))).
Proof.
  unfold extractQuotaForModel, bind, time_Now, httpClient_Do. simpl.
  destruct (httpDo E (exchanges w) _); reflexivity.
Qed.

Lemma probeModel_run email projectID accessToken modelName modelQuotas w :
  exists x,
    (exists requestNano sessionNano,
       xreq x = generateRequest email projectID accessToken modelName
                  requestNano sessionNano) /\
    probeModel E email projectID accessToken modelName modelQuotas w =
    (modelQuotas ++ collectQuotas (probeQuota E) [x], record x (tick (tick w))).
Proof.
  set (req := generateRequest email projectID accessToken modelName
                (clock E (ticks w)) (clock E (S (ticks w)))).
  exists {| xreq := req; xres := httpDo E (exchanges w) req |}.
  split; [eexists _, _; reflexivity|].
  unfold probeModel, bind. rewrite extractQuotaForModel_run. simpl.
  fold req.
  unfold probeQuota. simpl.
  destruct (httpDo E (exchanges w) _) as [resp|err]; simpl.
  - destruct (headerQuota E modelName resp); simpl;
      rewrite ?app_nil_r; reflexivity.
  - rewrite app_nil_r. reflexivity.
Qed.

Lemma probeLoop_run email projectID accessToken models :
  forall modelQuotas w,
  exists ps w',
    rangeLoop (probeModel E email projectID accessToken) models modelQuotas w =
    (modelQuotas ++ collectQuotas (probeQuota E) ps, w') /\
    exchanges w' = exchanges w ++ ps /\
    authManager w' = authManager w /\
    Probes email projectID accessToken models ps.
Proof.
  induction models as [|modelName models IH]; intros modelQuotas w.
  - exists [], w. simpl. rewrite !app_nil_r.
    repeat split. constructor.
  - destruct (probeModel_run email projectID accessToken modelName modelQuotas w)
      as (x & Hreq & Hrun).
    destruct (IH (modelQuotas ++ collectQuotas (probeQuota E) [x])
                 (record x (tick (tick w)))) as (ps & w' & Hloop & Hex & Ham & Hps).
    exists (x :: ps), w'. simpl rangeLoop. unfold bind. rewrite Hrun, Hloop.
    repeat split.
    + rewrite <- app_assoc, <- collectQuotas_app. reflexivity.
    + rewrite Hex. simpl. rewrite <- app_assoc. reflexivity.
    + rewrite Ham. reflexivity.
    + constructor; assumption.
Qed.

Lemma fetchQuotaFromHeaders_run email projectID accessToken w :
  exists ps w',
    fetchQuotaFromHeaders E email projectID accessToken w =
    (match collectQuotas (probeQuota E) ps with
     | [] => Err "no quota information extracted from headers"
     | _ :: _ => Ok (collectQuotas (probeQuota E) ps)
     end, w') /\
    exchanges w' = exchanges w ++ ps /\
    authManager w' = authManager w /\
    Probes email projectID accessToken modelsToCheck ps.
Proof.
  destruct (probeLoop_run email projectID accessToken modelsToCheck [] w)
    as (ps & w' & Hloop & Hex & Ham & Hps).
  exists ps, w'. repeat split; try assumption.
  unfold fetchQuotaFromHeaders, bind. rewrite Hloop. simpl.
  destruct (collectQuotas (probeQuota E) ps); reflexivity.
Qed.

End Calls.

(** ** The endpoint loop *)

Section Loop.

Variable E : Env.
Variables email projectID accessToken : string.

Lemma advances_split err :
  unauthorizedText err = false -> forbiddenText err = false ->
  Contains err "404" = true -> advances err = true.
Proof. unfold advances. intros -> -> ->. reflexivity. Qed.

(** Every call of the loop is a [Run] over the exchanges it adds. *)
Lemma tryEndpoints_Run candidates :
  forall lastError w quota w',
    tryEndpoints E email projectID accessToken candidates lastError w = (quota, w') ->
    exists new,
      exchanges w' = exchanges w ++ new /\
      authManager w' = authManager w /\
      Run E email projectID accessToken candidates lastError new quota.
Proof.
  induction candidates as [|endpoint rest IH]; intros lastError w quota w' Hrun.
  - simpl in Hrun. unfold allEndpointsFailed, bind, time_Now, ret in Hrun.
    injection Hrun as <- <-. exists []. simpl. rewrite app_nil_r.
    repeat split. apply Run_exhausted.
  - simpl in Hrun. unfold bind in Hrun at 1.
    rewrite callQuotaEndpoint_run in Hrun. cbv zeta in Hrun.
    set (x := quotaExchange E endpoint accessToken w) in *.
    assert (Hreq : xreq x = quotaRequest endpoint accessToken) by reflexivity.
    destruct (endpointVerdict E (xres x)) as [quotas|err] eqn:Hverdict.
    + injection Hrun as <- <-. exists [x]. repeat split.
      eapply Run_success; eassumption.
    + fold (unauthorizedText err) in Hrun. fold (forbiddenText err) in Hrun.
      destruct (unauthorizedText err) eqn:Hunauth.
      { unfold bind, time_Now, ret in Hrun. injection Hrun as <- <-.
        exists [x]. repeat split. eapply Run_unauthorized; eassumption. }
      destruct (forbiddenText err) eqn:Hforb.
      { unfold bind in Hrun at 1.
        destruct (fetchQuotaFromHeaders_run E email projectID accessToken (record x w))
          as (ps & w1 & Hfetch & Hex & Ham & Hps).
        rewrite Hfetch in Hrun.
        exists (x :: ps).
        destruct (collectQuotas (probeQuota E) ps) as [|q0 qs] eqn:Hquotas;
          unfold bind, time_Now, ret in Hrun; injection Hrun as <- <-; simpl;
          (split; [rewrite Hex; simpl; rewrite <- app_assoc; reflexivity|]);
          (split; [rewrite Ham; reflexivity|]).
        - eapply Run_fallback_failed; eassumption.
        - rewrite <- Hquotas. eapply Run_fallback; try eassumption.
          rewrite Hquotas. discriminate. }
      destruct (Contains err "404") eqn:H404; simpl in Hrun.
      * apply IH in Hrun. destruct Hrun as (new & Hex & Ham & Hnew).
        exists (x :: new). repeat split.
        -- rewrite Hex. simpl. rewrite <- app_assoc. reflexivity.
        -- rewrite Ham. reflexivity.
        -- eapply Run_next; try eassumption. apply advances_split; assumption.
      * unfold allEndpointsFailed, bind, time_Now, ret in Hrun.
        injection Hrun as <- <-. exists [x]. repeat split.
        eapply Run_break; eassumption.
Qed.

(** A generation call never goes to a candidate endpoint. *)
Lemma generateRequest_not_candidate em pid tok modelName requestNano sessionNano x :
  xreq x = generateRequest em pid tok modelName requestNano sessionNano ->
  ~ toCandidate x.
Proof.
  unfold toCandidate. intros ->. unfold generateRequest. simpl URL.
  destruct (Contains pid "daily" || Contains em "daily"); simpl;
    intros [H|[H|[H|[]]]]; discriminate.
Qed.

Lemma Probes_not_candidate models ps x :
  Probes email projectID accessToken models ps -> In x ps -> ~ toCandidate x.
Proof.
  induction 1 as [|modelName y models ps (t1 & t2 & Hreq) _ IH]; simpl; [tauto|].
  intros [<-|Hin]; [|auto].
  eapply generateRequest_not_candidate; eassumption.
Qed.

(** How a run starts. *)
Lemma Run_head candidates lastError new quota :
  Run E email projectID accessToken candidates lastError new quota ->
  (candidates = [] /\ new = [] /\
   exists now, quota = mkQuota email projectID "error" []
                         (match lastError with
                          | Some err => err
                          | None => "Failed to fetch quota"
                          end) now) \/
  (exists endpoint rest y new',
     candidates = endpoint :: rest /\ new = y :: new' /\
     xreq y = quotaRequest endpoint accessToken).
Proof.
  destruct 1; [left; eauto|right; eauto 10..].
Qed.

Lemma advances_inv err :
  advances err = true ->
  unauthorizedText err = false /\ forbiddenText err = false /\ Contains err "404" = true.
Proof.
  unfold advances. destruct (unauthorizedText err), (forbiddenText err),
    (Contains err "404"); simpl; intros; try discriminate; auto.
Qed.

Lemma Run_at candidates lastError new quota :
  Run E email projectID accessToken candidates lastError new quota ->
  incl candidates endpoints ->
  forall pre x post,
    new = pre ++ x :: post -> toCandidate x ->
    Forall toCandidate pre /\ followsVerdict E email projectID accessToken x post quota.
Proof.
  unfold followsVerdict.
  induction 1 as [ lastError now
                 | endpoint rest lastError x0 quotas now Hreq Hv
                 | endpoint rest lastError x0 err now Hreq Hv Hun
                 | endpoint rest lastError x0 err ps now Hreq Hv Hun Hfo Hps Hqs
                 | endpoint rest lastError x0 err ps now Hreq Hv Hun Hfo Hps Hqs
                 | endpoint rest lastError x0 err now Hreq Hv Hun Hfo H404
                 | endpoint rest lastError x0 err new quota Hreq Hv Hadv Hrun IH ];
    intros Hincl pre x post Hnew Hcand.
  - destruct pre; discriminate.
  - destruct pre as [|p pre]; simpl in Hnew; [|destruct pre; discriminate].
    injection Hnew as <- <-. rewrite Hv. split; [constructor|]. split; eauto.
  - destruct pre as [|p pre]; simpl in Hnew; [|destruct pre; discriminate].
    injection Hnew as <- <-. rewrite Hv, Hun. split; [constructor|]. split; eauto.
  - destruct pre as [|p pre]; simpl in Hnew; injection Hnew as <- Hrest.
    + subst post. rewrite Hv, Hun, Hfo. split; [constructor|]. split; [assumption|].
      exists now. destruct (collectQuotas (probeQuota E) ps); [congruence|reflexivity].
    + exfalso. eapply Probes_not_candidate; [eassumption| |exact Hcand].
      rewrite Hrest. apply in_elt.
  - destruct pre as [|p pre]; simpl in Hnew; injection Hnew as <- Hrest.
    + subst post. rewrite Hv, Hun, Hfo. split; [constructor|]. split; [assumption|].
      exists now. rewrite Hqs. reflexivity.
    + exfalso. eapply Probes_not_candidate; [eassumption| |exact Hcand].
      rewrite Hrest. apply in_elt.
  - destruct pre as [|p pre]; simpl in Hnew; [|destruct pre; discriminate].
    injection Hnew as <- <-. rewrite Hv, Hun, Hfo, H404.
    split; [constructor|]. split; eauto.
  - assert (Hincl' : incl rest endpoints)
      by (intros e He; apply Hincl; right; exact He).
    destruct pre as [|p pre]; simpl in Hnew; injection Hnew as <- Hrest.
    + subst post. destruct (advances_inv _ Hadv) as (Hun & Hfo & H404).
      rewrite Hv, Hun, Hfo, H404. split; [constructor|].
      destruct (Run_head _ _ _ _ Hrun)
        as [(_ & -> & now & ->)|(e' & r' & y & new' & -> & -> & Hy)].
      * left. split; eauto.
      * right. exists y, new'. split; [reflexivity|].
        unfold toCandidate. rewrite Hy. simpl. apply Hincl'. left. reflexivity.
    + destruct (IH Hincl' pre x post Hrest Hcand) as [Hpre Hfollow].
      split; [|exact Hfollow]. constructor; [|exact Hpre].
      unfold toCandidate. rewrite Hreq. simpl. apply Hincl. left. reflexivity.
Qed.

Lemma fetchQuotaForAccount_Run w quota w' :
  fetchQuotaForAccount E email projectID accessToken w = (quota, w') ->
  exists new,
    exchanges w' = exchanges w ++ new /\
    authManager w' = authManager w /\
    Run E email projectID accessToken endpoints None new quota.
Proof. apply tryEndpoints_Run. Qed.

End Loop.

(** ** Verdicts of the usual answers *)

Section Answers.

Variable E : Env.

Lemma verdict_401 x :
  answered 401 x -> endpointVerdict E (xres x) = Err "unauthorized: access token expired".
Proof.
  intros (resp & -> & Hbody & Hstatus). unfold endpointVerdict.
  rewrite Hbody, Hstatus. reflexivity.
Qed.

Lemma verdict_403 body x :
  answered403 body x -> endpointVerdict E (xres x) = Err ("forbidden: " +:+ body).
Proof.
  intros (resp & -> & Hbody & Hstatus & <-). unfold endpointVerdict.
  rewrite Hbody, Hstatus. reflexivity.
Qed.

Lemma verdict_404 x :
  answered 404 x -> endpointVerdict E (xres x) = Err "404: endpoint not found".
Proof.
  intros (resp & -> & Hbody & Hstatus). unfold endpointVerdict.
  rewrite Hbody, Hstatus. reflexivity.
Qed.

Lemma forbiddenText_403 body : forbiddenText ("forbidden: " +:+ body) = true.
Proof. reflexivity. Qed.

End Answers.

(** The new exchanges of a call, cut at one of them. *)
Lemma fetchQuotaForAccount_at E email projectID accessToken w quota w' pre x post :
  fetchQuotaForAccount E email projectID accessToken w = (quota, w') ->
  exchanges w' = exchanges w ++ pre ++ x :: post ->
  toCandidate x ->
  Forall toCandidate pre /\ followsVerdict E email projectID accessToken x post quota.
Proof.
  intros Hrun Hex Hcand.
  destruct (fetchQuotaForAccount_Run E _ _ _ _ _ _ Hrun) as (new & Hnew & _ & HRun).
  rewrite Hnew in Hex. apply app_inv_head in Hex.
  eapply Run_at; eauto. intros e He; exact He.
Qed.

(** ** C2: a 401 ends the resolution at once *)

(** C2, as the code has it.  Whenever a call to a candidate endpoint made by
    [fetchQuotaForAccount] is answered with HTTP 401 and the body of that
    response is read in full, the account quota returned has status
    "inactive" and the re-login error, that call is the last exchange of the
    resolution (no further candidate, no header probe), and every exchange
    before it was a call to a candidate endpoint.  The body is read before
    the status is looked at, so a 401 whose body cannot be read is reported
    as a read error instead. *)
Theorem unauthorized_short_circuits E email projectID accessToken w quota w' pre x post :
  fetchQuotaForAccount E email projectID accessToken w = (quota, w') ->
  exchanges w' = exchanges w ++ pre ++ x :: post ->
  toCandidate x ->
  answered 401 x ->
  Status quota = "inactive" /\
  Error quota = "Access token expired. Please re-login: CLIProxyAPI -antigravity-login" /\
  ModelQuotas quota = [] /\
  post = [] /\
  Forall toCandidate pre.
Proof.
  intros Hrun Hex Hcand H401.
  destruct (fetchQuotaForAccount_at _ _ _ _ _ _ _ _ _ _ Hrun Hex Hcand) as [Hpre Hfollow].
  unfold followsVerdict in Hfollow. rewrite (verdict_401 E x H401) in Hfollow.
  simpl in Hfollow. destruct Hfollow as (-> & now & ->).
  repeat split; assumption.
Qed.

Lemma unauthorized_short_circuits_witness :
  let E := sampleEnv (sampleScript [(404, "not found"); (401, "expired")] endpoints)
                     sampleTwoHeaders in
  let w := sampleWorld [] in
  let r := fetchQuotaForAccount E "a@example.com" "project-1" "token" w in
  (exists pre x,
     exchanges (snd r) = exchanges w ++ pre ++ [x] /\ toCandidate x /\ answered 401 x) /\
  Status (fst r) = "inactive" /\
  Error (fst r) = "Access token expired. Please re-login: CLIProxyAPI -antigravity-login" /\
  ModelQuotas (fst r) = [].
Proof.
  intros E w r.
  assert (Hrun : fetchQuotaForAccount E "a@example.com" "project-1" "token" w
                 = (fst r, snd r)) by apply surjective_pairing.
  assert (Hex : exists pre x,
             exchanges (snd r) = exchanges w ++ pre ++ [x] /\ toCandidate x /\
             answered 401 x).
  { let v := eval vm_compute in (exchanges (snd r)) in
    match v with [?a; ?b] => exists [a], b end.
    split; [vm_compute; reflexivity|].
    split; [right; left; reflexivity|].
    eexists. split; [reflexivity|]. split; reflexivity. }
  split; [exact Hex|].
  destruct Hex as (pre & x & Hex & Hcand & H401).
  destruct (unauthorized_short_circuits E _ _ _ _ _ _ _ _ _ Hrun Hex Hcand H401)
    as (Hs & He & Hq & _).
  auto.
Defined.

(** A 401 whose body cannot be read does not end in the "inactive" re-login
    result.  When the read fails with "unexpected EOF" the account quota has
    status "error" and the read error as its text.  When the text of the read
    error contains "404" (here a stream number), the next candidate is tried,
    and its answer makes the account "active". *)
Lemma unreadable_401_is_not_inactive :
  let w := sampleWorld [] in
  let answers401 (e : string) (x : Exchange) :=
    exists resp, xres x = Ok resp /\ StatusCode resp = 401%Z /\ BodyErr resp = Some e in
  (let E := sampleEnv (sampleUnreadable "unexpected EOF") sampleNoHeaders in
   let r := fetchQuotaForAccount E "a@example.com" "project-1" "token" w in
   (exists x,
      exchanges (snd r) = [x] /\ toCandidate x /\ answers401 "unexpected EOF" x) /\
   Status (fst r) = "error" /\
   Error (fst r) = "read response: unexpected EOF" /\
   Status (fst r) <> "inactive") /\
  (let e := "stream error: stream ID 4041; INTERNAL_ERROR" in
   let E := sampleEnv (sampleUnreadable e) sampleNoHeaders in
   let r := fetchQuotaForAccount E "a@example.com" "project-1" "token" w in
   (exists x y,
      exchanges (snd r) = [x; y] /\ toCandidate x /\ answers401 e x /\
      toCandidate y /\ answered 200 y) /\
   Status (fst r) = "active" /\
   Error (fst r) = "" /\
   length (ModelQuotas (fst r)) = 1%nat).
Proof.
  intros w answers401. split.
  - intros E r. split.
    + let v := eval vm_compute in (exchanges (snd r)) in
      match v with [?a] => exists a end.
      split; [vm_compute; reflexivity|].
      split; [left; reflexivity|].
      eexists. split; [reflexivity|]. split; reflexivity.
    + split; [vm_compute; reflexivity|]. split; [vm_compute; reflexivity|].
      vm_compute. discriminate.
  - intros e E r. split.
    + let v := eval vm_compute in (exchanges (snd r)) in
      match v with [?a; ?b] => exists a, b end.
      split; [vm_compute; reflexivity|].
      split; [left; reflexivity|].
      split; [eexists; split; [reflexivity|]; split; reflexivity|].
      split; [right; left; reflexivity|].
      eexists. split; [reflexivity|]. split; reflexivity.
    + split; [vm_compute; reflexivity|]. split; vm_compute; reflexivity.
Qed.

(** ** C9: the unauthorized test comes first *)

Lemma unauthorizedText_forbidden body :
  unauthorizedText body = true -> unauthorizedText ("forbidden: " +:+ body) = true.
Proof.
  unfold unauthorizedText. intros H. apply orb_true_iff in H. apply orb_true_iff.
  destruct H as [H|H]; [left|right]; apply Contains_append_r; exact H.
Qed.

(** C9. The loop classifies an endpoint error by substrings of its text, the
    unauthorized test first: when a call to a candidate endpoint fails with an
    error text that contains "unauthorized" or "access token expired" -- in
    particular when it is answered with a 403 whose body contains one of them,
    the forbidden error text embedding the body -- the account quota is the
    "inactive" re-login result and that call is the last exchange: the header
    probe is not run. *)
Theorem unauthorized_text_before_forbidden
    E email projectID accessToken w quota w' pre x post :
  fetchQuotaForAccount E email projectID accessToken w = (quota, w') ->
  exchanges w' = exchanges w ++ pre ++ x :: post ->
  toCandidate x ->
  (exists err, endpointVerdict E (xres x) = Err err /\
               Contains err "unauthorized" || Contains err "access token expired" = true) \/
  (exists body, answered403 body x /\
                Contains body "unauthorized" || Contains body "access token expired" = true) ->
  Status quota = "inactive" /\
  Error quota = "Access token expired. Please re-login: CLIProxyAPI -antigravity-login" /\
  ModelQuotas quota = [] /\
  post = [].
Proof.
  intros Hrun Hex Hcand Herr.
  assert (Hv : exists err, endpointVerdict E (xres x) = Err err /\ unauthorizedText err = true).
  { destruct Herr as [(err & Hv & Hun)|(body & H403 & Hun)].
    - exists err. split; assumption.
    - exists ("forbidden: " +:+ body). split; [apply verdict_403; exact H403|].
      apply unauthorizedText_forbidden. exact Hun. }
  destruct Hv as (err & Hv & Hun).
  destruct (fetchQuotaForAccount_at _ _ _ _ _ _ _ _ _ _ Hrun Hex Hcand) as [_ Hfollow].
  unfold followsVerdict in Hfollow. rewrite Hv, Hun in Hfollow.
  destruct Hfollow as (-> & now & ->). repeat split.
Qed.

Lemma unauthorized_text_before_forbidden_witness :
  let E := sampleEnv (sampleScript [(403, "unauthorized client")] endpoints)
                     sampleTwoHeaders in
  let w := sampleWorld [] in
  let r := fetchQuotaForAccount E "a@example.com" "project-1" "token" w in
  (exists x,
     exchanges (snd r) = exchanges w ++ [] ++ [x] /\ toCandidate x /\
     answered403 "unauthorized client" x) /\
  Status (fst r) = "inactive" /\
  Error (fst r) = "Access token expired. Please re-login: CLIProxyAPI -antigravity-login" /\
  ModelQuotas (fst r) = [].
Proof.
  intros E w r.
  assert (Hrun : fetchQuotaForAccount E "a@example.com" "project-1" "token" w
                 = (fst r, snd r)) by apply surjective_pairing.
  assert (Hex : exists x,
             exchanges (snd r) = exchanges w ++ [] ++ [x] /\ toCandidate x /\
             answered403 "unauthorized client" x).
  { let v := eval vm_compute in (exchanges (snd r)) in
    match v with [?a] => exists a end.
    split; [vm_compute; reflexivity|].
    split; [left; reflexivity|].
    eexists. repeat split; reflexivity. }
  split; [exact Hex|].
  destruct Hex as (x & Hex & Hcand & H403).
  destruct (unauthorized_text_before_forbidden E _ _ _ _ _ _ _ _ _ Hrun Hex Hcand)
    as (Hs & He & Hq & _).
  { right. exists "unauthorized client". split; [exact H403|reflexivity]. }
  auto.
Defined.

(** ** The header probe *)

Section Headers.

Variable E : Env.

Lemma eqb_empty_false s : s <> "" -> String.eqb s "" = false.
Proof. intros H. apply String.eqb_neq. exact H. Qed.

(** [headerQuota] yields an entry exactly on valid rate-limit headers. *)
Lemma headerQuota_valid modelName resp :
  validRateLimit E resp = true ->
  exists quota, headerQuota E modelName resp = Some quota.
Proof.
  unfold validRateLimit, headerQuota.
  destruct (String.eqb (Header_Get (Header resp) "X-RateLimit-Limit") ""); [discriminate|].
  destruct (String.eqb (Header_Get (Header resp) "X-RateLimit-Remaining") "");
    [discriminate|]. simpl.
  destruct (Sscanf_d E (Header_Get (Header resp) "X-RateLimit-Limit")) as [limit|];
    [|discriminate].
  destruct (Sscanf_d E (Header_Get (Header resp) "X-RateLimit-Remaining")) as [remaining|];
    [|discriminate].
  destruct (limit =? 0)%Z; [discriminate|]. eauto.
Qed.

Lemma headerQuota_invalid modelName resp :
  validRateLimit E resp = false -> headerQuota E modelName resp = None.
Proof.
  unfold validRateLimit, headerQuota.
  destruct (String.eqb (Header_Get (Header resp) "X-RateLimit-Limit") ""); [reflexivity|].
  destruct (String.eqb (Header_Get (Header resp) "X-RateLimit-Remaining") "");
    [reflexivity|]. simpl.
  destruct (Sscanf_d E (Header_Get (Header resp) "X-RateLimit-Limit")) as [limit|];
    [|reflexivity].
  destruct (limit =? 0)%Z; [reflexivity|].
  destruct (Sscanf_d E (Header_Get (Header resp) "X-RateLimit-Remaining")) as [remaining|];
    [discriminate|reflexivity].
Qed.

(** In a probe, the exchanges that contribute a quota are those with valid
    rate-limit headers. *)
Lemma Probes_quotas email projectID accessToken models ps :
  Probes email projectID accessToken models ps ->
  length (collectQuotas (probeQuota E) ps) = length (List.filter (hasRateLimit E) ps).
Proof.
  induction 1 as [|modelName y models ps (t1 & t2 & Hreq) _ IH]; [reflexivity|].
  simpl. unfold probeQuota at 1, hasRateLimit at 1. rewrite Hreq. simpl.
  destruct (xres y) as [resp|err]; [|exact IH].
  destruct (validRateLimit E resp) eqn:Hvalid.
  - destruct (headerQuota_valid modelName resp Hvalid) as [quota ->]. simpl. congruence.
  - rewrite (headerQuota_invalid modelName resp Hvalid). exact IH.
Qed.

End Headers.

(** C10. The header probe of one model does not look at the status (nor at
    the body) of the generation response: whatever they are, when the response
    carries an [X-RateLimit-Limit] header that parses to a nonzero limit and
    an [X-RateLimit-Remaining] header that parses, the call yields a model
    quota with remaining percent remaining / limit * 100; when either header
    is missing, the limit is zero or does not parse, or the remaining count
    does not parse, the call yields no entry and no error. *)
Theorem header_probe_ignores_status
    E email projectID accessToken modelName w resp :
  httpDo E (exchanges w)
    (generateRequest email projectID accessToken modelName
       (clock E (ticks w)) (clock E (S (ticks w)))) = Ok resp ->
  let limitHeader := Header_Get (Header resp) "X-RateLimit-Limit" in
  let remainingHeader := Header_Get (Header resp) "X-RateLimit-Remaining" in
  let outcome := fst (extractQuotaForModel E email projectID accessToken modelName w) in
  (forall limit remaining,
     limitHeader <> "" -> remainingHeader <> "" ->
     Sscanf_d E limitHeader = Some limit -> limit <> 0%Z ->
     Sscanf_d E remainingHeader = Some remaining ->
     outcome =
     Ok (Some {| Model := modelName;
                 DisplayName := getDisplayName modelName;
                 RemainingPercent :=
                   f64_mul (f64_div (float64_of_int remaining) (float64_of_int limit))
                           f64_100;
                 ResetTime := Header_Get (Header resp) "X-RateLimit-Reset" |})) /\
  (limitHeader = "" \/ remainingHeader = "" \/
   Sscanf_d E limitHeader = None \/ Sscanf_d E limitHeader = Some 0%Z \/
   Sscanf_d E remainingHeader = None ->
   outcome = Ok None).
Proof.
  intros Hdo limitHeader remainingHeader outcome.
  assert (Hout : outcome = Ok (headerQuota E modelName resp)).
  { unfold outcome. rewrite extractQuotaForModel_run. simpl. rewrite Hdo. reflexivity. }
  rewrite Hout. unfold headerQuota. fold limitHeader remainingHeader. split.
  - intros limit remaining Hl Hr Hlimit Hnz Hremaining.
    rewrite (eqb_empty_false _ Hl), (eqb_empty_false _ Hr). simpl.
    rewrite Hlimit, Hremaining.
    destruct (limit =? 0)%Z eqn:Hz; [apply Z.eqb_eq in Hz; contradiction|].
    reflexivity.
  - intros [->|[->|[Hlimit|[Hlimit|Hremaining]]]].
    + reflexivity.
    + rewrite orb_true_r. reflexivity.
    + destruct (_ || _); [reflexivity|]. rewrite Hlimit. reflexivity.
    + destruct (_ || _); [reflexivity|]. rewrite Hlimit. reflexivity.
    + destruct (_ || _); [reflexivity|].
      destruct (Sscanf_d E limitHeader) as [limit|]; [|reflexivity].
      destruct (limit =? 0)%Z; [reflexivity|]. rewrite Hremaining. reflexivity.
Qed.

Lemma header_probe_ignores_status_witness :
  let E := sampleEnv (sampleScript [(403, "denied")] endpoints) sampleTwoHeaders in
  let w := sampleWorld [] in
  let resp := {| StatusCode := 429;
                 Header := [ ("x-ratelimit-limit", "100"); ("X-RATELIMIT-REMAINING", "25");
                             ("X-RateLimit-Reset", "60s") ];
                 BodyData := ""; BodyErr := None |} in
  httpDo E (exchanges w)
    (generateRequest "a@example.com" "project-1" "token" "gemini-2.5-pro"
       (clock E (ticks w)) (clock E (S (ticks w)))) = Ok resp /\
  fst (extractQuotaForModel E "a@example.com" "project-1" "token" "gemini-2.5-pro" w) =
  Ok (Some {| Model := "gemini-2.5-pro";
              DisplayName := "Gemini 2.5 Pro";
              RemainingPercent := float64_of_int 25;
              ResetTime := "60s" |}).
Proof.
  intros E w resp.
  assert (Hdo : httpDo E (exchanges w)
                  (generateRequest "a@example.com" "project-1" "token" "gemini-2.5-pro"
                     (clock E (ticks w)) (clock E (S (ticks w)))) = Ok resp)
    by reflexivity.
  split; [exact Hdo|].
  destruct (header_probe_ignores_status E _ _ _ _ w resp Hdo) as [Hyes _].
  rewrite (Hyes 100%Z 25%Z);
    [vm_compute; reflexivity|vm_compute; discriminate|vm_compute; discriminate
    |vm_compute; reflexivity|lia|vm_compute; reflexivity].
Defined.

(** ** C4 and C1: a 403 followed by the header probe *)

Lemma answered_403 x : answered 403 x -> exists body, answered403 body x.
Proof.
  intros (resp & Hres & Hbody & Hstatus). exists (BodyData resp), resp. auto.
Qed.

(** C4. When a call to a candidate endpoint is answered with HTTP 403 and,
    of the exchanges that follow it, exactly two carry valid rate-limit
    headers, the account quota has status "active", exactly two model quota
    entries, and no error text (the forbidden body is dropped). *)
Theorem forbidden_then_two_headers
    E email projectID accessToken w quota w' pre x post :
  fetchQuotaForAccount E email projectID accessToken w = (quota, w') ->
  exchanges w' = exchanges w ++ pre ++ x :: post ->
  toCandidate x ->
  answered 403 x ->
  length (List.filter (hasRateLimit E) post) = 2%nat ->
  Status quota = "active" /\
  length (ModelQuotas quota) = 2%nat /\
  Error quota = "".
Proof.
  intros Hrun Hex Hcand H403 Htwo.
  destruct (answered_403 x H403) as [body Hbody].
  destruct (fetchQuotaForAccount_at _ _ _ _ _ _ _ _ _ _ Hrun Hex Hcand) as [_ Hfollow].
  unfold followsVerdict in Hfollow. rewrite (verdict_403 E body x Hbody) in Hfollow.
  destruct (unauthorizedText ("forbidden: " +:+ body)).
  - destruct Hfollow as (-> & _). discriminate.
  - rewrite forbiddenText_403 in Hfollow. destruct Hfollow as (Hps & now & Hquota).
    pose proof (Probes_quotas E _ _ _ _ _ Hps) as Hlen. rewrite Htwo in Hlen.
    destruct (collectQuotas (probeQuota E) post) as [|q0 qs]; [discriminate|].
    subst quota. simpl. auto.
Qed.

Lemma forbidden_then_two_headers_witness :
  let E := sampleEnv (sampleScript [(403, "permission denied")] endpoints)
                     sampleTwoHeaders in
  let w := sampleWorld [] in
  let r := fetchQuotaForAccount E "a@example.com" "project-1" "token" w in
  (exists x post,
     exchanges (snd r) = exchanges w ++ [] ++ x :: post /\ toCandidate x /\
     answered 403 x /\ length (List.filter (hasRateLimit E) post) = 2%nat) /\
  Status (fst r) = "active" /\
  length (ModelQuotas (fst r)) = 2%nat /\
  Error (fst r) = "".
Proof.
  intros E w r.
  assert (Hrun : fetchQuotaForAccount E "a@example.com" "project-1" "token" w
                 = (fst r, snd r)) by apply surjective_pairing.
  assert (Hex : exists x post,
             exchanges (snd r) = exchanges w ++ [] ++ x :: post /\ toCandidate x /\
             answered 403 x /\ length (List.filter (hasRateLimit E) post) = 2%nat).
  { let v := eval vm_compute in (exchanges (snd r)) in
    match v with ?a :: ?l => exists a, l end.
    split; [vm_compute; reflexivity|].
    split; [left; reflexivity|].
    split; [eexists; repeat split; reflexivity|].
    vm_compute. reflexivity. }
  split; [exact Hex|].
  destruct Hex as (x & post & Hex & Hcand & H403 & Htwo).
  exact (forbidden_then_two_headers E _ _ _ _ _ _ _ _ _ Hrun Hex Hcand H403 Htwo).
Defined.

(** C1, as the code has it. When a call to a candidate endpoint is answered
    with HTTP 403, the header probe is run after it and none of its exchanges
    carries valid rate-limit headers, the account quota has status
    "inactive" and its error text names both causes: access forbidden, and the
    failure of the fallback. *)
Theorem forbidden_then_no_header_data
    E email projectID accessToken w quota w' pre x post :
  fetchQuotaForAccount E email projectID accessToken w = (quota, w') ->
  exchanges w' = exchanges w ++ pre ++ x :: post ->
  toCandidate x ->
  answered 403 x ->
  post <> [] ->
  List.filter (hasRateLimit E) post = [] ->
  Status quota = "inactive" /\
  Error quota =
    "Access forbidden and fallback failed: no quota information extracted from headers" /\
  ModelQuotas quota = [].
Proof.
  intros Hrun Hex Hcand H403 Hprobe Hnone.
  destruct (answered_403 x H403) as [body Hbody].
  destruct (fetchQuotaForAccount_at _ _ _ _ _ _ _ _ _ _ Hrun Hex Hcand) as [_ Hfollow].
  unfold followsVerdict in Hfollow. rewrite (verdict_403 E body x Hbody) in Hfollow.
  destruct (unauthorizedText ("forbidden: " +:+ body)).
  - destruct Hfollow as (-> & _). contradiction.
  - rewrite forbiddenText_403 in Hfollow. destruct Hfollow as (Hps & now & Hquota).
    pose proof (Probes_quotas E _ _ _ _ _ Hps) as Hlen. rewrite Hnone in Hlen.
    destruct (collectQuotas (probeQuota E) post) as [|q0 qs]; [|discriminate].
    subst quota. repeat split.
Qed.

Lemma forbidden_then_no_header_data_witness :
  let E := sampleEnv (sampleScript [(404, "not found"); (403, "permission denied")]
                        endpoints) sampleNoHeaders in
  let w := sampleWorld [] in
  let r := fetchQuotaForAccount E "a@example.com" "project-1" "token" w in
  (exists pre x post,
     exchanges (snd r) = exchanges w ++ pre ++ x :: post /\ toCandidate x /\
     answered 403 x /\ post <> [] /\ List.filter (hasRateLimit E) post = []) /\
  Status (fst r) = "inactive" /\
  Error (fst r) =
    "Access forbidden and fallback failed: no quota information extracted from headers" /\
  ModelQuotas (fst r) = [].
Proof.
  intros E w r.
  assert (Hrun : fetchQuotaForAccount E "a@example.com" "project-1" "token" w
                 = (fst r, snd r)) by apply surjective_pairing.
  assert (Hex : exists pre x post,
             exchanges (snd r) = exchanges w ++ pre ++ x :: post /\ toCandidate x /\
             answered 403 x /\ post <> [] /\ List.filter (hasRateLimit E) post = []).
  { let v := eval vm_compute in (exchanges (snd r)) in
    match v with ?a :: ?b :: ?l => exists [a], b, l end.
    split; [vm_compute; reflexivity|].
    split; [right; left; reflexivity|].
    split; [eexists; repeat split; reflexivity|].
    split; [discriminate|]. vm_compute. reflexivity. }
  split; [exact Hex|].
  destruct Hex as (pre & x & post & Hex & Hcand & H403 & Hprobe & Hnone).
  exact (forbidden_then_no_header_data E _ _ _ _ _ _ _ _ _ Hrun Hex Hcand H403 Hprobe Hnone).
Defined.

(** On a 403 followed by a header probe that finds no rate-limit headers, the
    status is "inactive", not "error". *)
Lemma no_header_data_status_is_inactive :
  let E := sampleEnv (sampleScript [(403, "permission denied")] endpoints)
                     sampleNoHeaders in
  let w := sampleWorld [] in
  let r := fetchQuotaForAccount E "a@example.com" "project-1" "token" w in
  (exists x post,
     exchanges (snd r) = x :: post /\ toCandidate x /\ answered 403 x /\
     length post = 8%nat /\ List.filter (hasRateLimit E) post = []) /\
  Status (fst r) = "inactive" /\
  Status (fst r) <> "error".
Proof.
  intros E w r. split.
  - let v := eval vm_compute in (exchanges (snd r)) in
    match v with ?a :: ?l => exists a, l end.
    split; [vm_compute; reflexivity|].
    split; [left; reflexivity|].
    split; [eexists; repeat split; reflexivity|].
    split; vm_compute; reflexivity.
  - split; [vm_compute; reflexivity|]. vm_compute. discriminate.
Qed.


(** ** C5: the candidates, in order *)

Section Order.

Variable E : Env.
Variables email projectID accessToken : string.

Lemma advancesOn_Err x err :
  endpointVerdict E (xres x) = Err err -> advancesOn E x = advances err.
Proof. unfold advancesOn. intros ->. reflexivity. Qed.

Lemma advancesOn_404 x : answered 404 x -> advancesOn E x = true.
Proof. intros H. rewrite (advancesOn_Err x _ (verdict_404 E x H)). reflexivity. Qed.

Lemma advances_unauthorized err : unauthorizedText err = true -> advances err = false.
Proof. unfold advances. intros ->. reflexivity. Qed.

Lemma advances_forbidden err : forbiddenText err = true -> advances err = false.
Proof. unfold advances. intros ->. apply andb_false_intro1, andb_false_r. Qed.

Lemma advances_no404 err : Contains err "404" = false -> advances err = false.
Proof. unfold advances. intros ->. apply andb_false_r. Qed.

(** A run that stops after one quota call, possibly followed by a probe. *)
Lemma Shape_single endpoint rest lastError x ps quota :
  advancesOn E x = false ->
  xreq x = quotaRequest endpoint accessToken ->
  ps = [] \/ Probes email projectID accessToken modelsToCheck ps ->
  Shape E email projectID accessToken (endpoint :: rest) lastError [x] ps quota.
Proof.
  intros Hadv Hreq Hps. unfold Shape. simpl.
  split; [lia|]. split; [discriminate|]. split; [rewrite Hreq; reflexivity|].
  split; [exact Hps|]. split.
  - intros [|i] y Hy; simpl in Hy.
    + injection Hy as <-. rewrite Hadv. split; [lia|intros [? _]; discriminate].
    + destruct i; discriminate.
  - intros H. inversion H as [|? ? Hx _]; subst. congruence.
Qed.

Lemma Run_shape candidates lastError new quota :
  Run E email projectID accessToken candidates lastError new quota ->
  exists qs ps,
    new = qs ++ ps /\ Shape E email projectID accessToken candidates lastError qs ps quota.
Proof.
  induction 1 as [ lastError now
                 | endpoint rest lastError x0 quotas now Hreq Hv
                 | endpoint rest lastError x0 err now Hreq Hv Hun
                 | endpoint rest lastError x0 err ps now Hreq Hv Hun Hfo Hps Hqs
                 | endpoint rest lastError x0 err ps now Hreq Hv Hun Hfo Hps Hqs
                 | endpoint rest lastError x0 err now Hreq Hv Hun Hfo H404
                 | endpoint rest lastError x0 err new quota Hreq Hv Hadv Hrun IH ].
  - exists [], []. split; [reflexivity|]. unfold Shape. simpl.
    split; [lia|]. split; [tauto|]. split; [reflexivity|]. split; [left; reflexivity|].
    split; [intros [|i] x Hx; discriminate|].
    intros _. repeat split. exists now. reflexivity.
  - exists [x0], []. split; [reflexivity|]. apply Shape_single; auto.
    unfold advancesOn. rewrite Hv. reflexivity.
  - exists [x0], []. split; [reflexivity|]. apply Shape_single; auto.
    rewrite (advancesOn_Err _ _ Hv). apply advances_unauthorized, Hun.
  - exists [x0], ps. split; [reflexivity|]. apply Shape_single; auto.
    rewrite (advancesOn_Err _ _ Hv). apply advances_forbidden, Hfo.
  - exists [x0], ps. split; [reflexivity|]. apply Shape_single; auto.
    rewrite (advancesOn_Err _ _ Hv). apply advances_forbidden, Hfo.
  - exists [x0], []. split; [reflexivity|]. apply Shape_single; auto.
    rewrite (advancesOn_Err _ _ Hv). apply advances_no404, H404.
  - destruct IH as (qs & ps & -> & Hlen & Hne & Hmap & Hps & Hstep & Hall).
    exists (x0 :: qs), ps. split; [reflexivity|]. unfold Shape. simpl.
    split; [lia|]. split; [discriminate|].
    split; [rewrite Hreq, Hmap; reflexivity|]. split; [exact Hps|]. split.
    + intros [|i] y Hy; simpl in Hy.
      * injection Hy as <-. rewrite (advancesOn_Err _ _ Hv), Hadv.
        split.
        -- intros Hlt. split; [reflexivity|]. lia.
        -- intros [_ Hlt]. assert (qs <> []) as Hqs.
           { apply Hne. destruct rest; [simpl in Hlt; lia|discriminate]. }
           destruct qs; [contradiction|simpl; lia].
      * rewrite <- Nat.succ_lt_mono. rewrite (Hstep i y Hy).
        rewrite <- Nat.succ_lt_mono. reflexivity.
    + intros Hforall. inversion Hforall as [|? ? _ Hqs]; subst.
      destruct (Hall Hqs) as (Hlen' & -> & now & ->).
      split; [congruence|]. split; [reflexivity|]. exists now.
      unfold exhaustedText. f_equal.
      destruct qs as [|q1 qs].
      * rewrite last_singleton, last_nil, Hv. reflexivity.
      * rewrite last_cons_cons.
        destruct (last (q1 :: qs)) eqn:Hlast; [reflexivity|].
        apply last_None in Hlast. discriminate.
Qed.

End Order.

(** The last of a nonempty list satisfies what all its elements do. *)
Lemma Forall_last {A} (P : A -> Prop) (l : list A) :
  Forall P l -> l <> [] -> exists x, last l = Some x /\ P x.
Proof.
  intros Hall Hne.
  destruct (last l) as [x|] eqn:Hlast; [|apply last_None in Hlast; contradiction].
  exists x. split; [reflexivity|].
  apply last_Some in Hlast. destruct Hlast as [l' ->].
  apply Forall_app in Hall. destruct Hall as [_ Hx].
  inversion Hx; assumption.
Qed.

(** X20. The loop as the code has it. [fetchQuotaForAccount] calls the three
    candidate endpoints in their fixed order, at least the first one; after a
    call it goes on to the next candidate exactly when the call failed with an
    error text that contains "404" and none of "unauthorized", "access token
    expired", "forbidden", "banned" -- which a NotFound answer does -- and a
    candidate is left; when all the calls made were answered NotFound, all
    three candidates were called, no header probe was run, and the account
    quota has status "error" with the last error text, "404: endpoint not
    found". *)
Theorem candidates_tried_in_order E email projectID accessToken w quota w' :
  fetchQuotaForAccount E email projectID accessToken w = (quota, w') ->
  exists qs ps,
    exchanges w' = exchanges w ++ qs ++ ps /\
    (1 <= length qs <= 3)%nat /\
    map xreq qs =
      map (fun endpoint => quotaRequest endpoint accessToken)
          (firstn (length qs) endpoints) /\
    Forall (fun y => ~ toCandidate y) ps /\
    (forall i x, nth_error qs i = Some x ->
       ((S i < length qs)%nat <-> advancesOn E x = true /\ (S i < 3)%nat)) /\
    (forall x, answered 404 x -> advancesOn E x = true) /\
    (Forall (answered 404) qs ->
     length qs = 3%nat /\ ps = [] /\
     Status quota = "error" /\ Error quota = "404: endpoint not found").
Proof.
  intros Hrun.
  destruct (fetchQuotaForAccount_Run E _ _ _ _ _ _ Hrun) as (new & Hnew & _ & HRun).
  destruct (Run_shape E _ _ _ _ _ _ _ HRun)
    as (qs & ps & -> & Hlen & Hne & Hmap & Hps & Hstep & Hall).
  exists qs, ps. split; [exact Hnew|].
  assert (Hqs : qs <> []) by (apply Hne; discriminate).
  split; [destruct qs; [contradiction|simpl in *; lia]|].
  split; [exact Hmap|]. split.
  { destruct Hps as [->|Hps]; [constructor|].
    apply List.Forall_forall. intros y Hy.
    eapply Probes_not_candidate; eassumption. }
  split; [exact Hstep|]. split; [apply advancesOn_404|].
  intros H404.
  assert (Hadv : Forall (fun x => advancesOn E x = true) qs).
  { eapply Forall_impl; [exact H404|]. intros x Hx. apply advancesOn_404, Hx. }
  destruct (Hall Hadv) as (Hlen' & -> & now & ->).
  split; [exact Hlen'|]. split; [reflexivity|]. split; [reflexivity|].
  destruct (Forall_last _ _ H404 Hqs) as (x & Hlast & Hx).
  simpl. unfold exhaustedText. rewrite Hlast, (verdict_404 E x Hx). reflexivity.
Qed.

Lemma candidates_tried_in_order_witness :
  let E := sampleEnv (sampleScript [(404, "a"); (404, "b"); (404, "c")] endpoints)
                     sampleTwoHeaders in
  let w := sampleWorld [] in
  let r := fetchQuotaForAccount E "a@example.com" "project-1" "token" w in
  Forall (answered 404) (exchanges (snd r)) /\
  map (fun x => URL (xreq x)) (exchanges (snd r)) = endpoints /\
  Status (fst r) = "error" /\ Error (fst r) = "404: endpoint not found".
Proof.
  intros E w r.
  assert (Hrun : fetchQuotaForAccount E "a@example.com" "project-1" "token" w
                 = (fst r, snd r)) by apply surjective_pairing.
  assert (H404 : Forall (answered 404) (exchanges (snd r))).
  { let v := eval vm_compute in (exchanges (snd r)) in
    change (exchanges (snd r)) with v.
    repeat constructor; eexists; repeat split; reflexivity. }
  split; [exact H404|]. split; [vm_compute; reflexivity|].
  destruct (candidates_tried_in_order E _ _ _ _ _ _ Hrun)
    as (qs & ps & Hex & Hlen & Hmap & Hps & _ & _ & Hall).
  assert (Hqs : Forall (answered 404) qs).
  { change (exchanges (snd r) = qs ++ ps) in Hex.
    rewrite Hex in H404. apply Forall_app in H404. tauto. }
  destruct (Hall Hqs) as (_ & _ & Hs & He). auto.
Defined.

(** C5. The loop is meant to go on to the next candidate on a NotFound
    answer only (the source says: if not a 404, return the error).  It tests
    the error text for "404" instead, so it also goes on after an answer that
    is not NotFound: here an HTTP 500 whose body mentions 404 on the first
    candidate, after which the second candidate is called and serves the
    result. *)
Lemma advances_without_NotFound :
  let E := sampleEnv (sampleScript [(500, "upstream returned 404"); (200, "map")] endpoints)
                     sampleTwoHeaders in
  let w := sampleWorld [] in
  let r := fetchQuotaForAccount E "a@example.com" "project-1" "token" w in
  exists x y,
    exchanges (snd r) = [x; y] /\
    URL (xreq x) = "https://daily-cloudcode-pa.googleapis.com/v1internal:fetchAvailableModels" /\
    answered 500 x /\ ~ answered 404 x /\
    URL (xreq y) =
      "https://daily-cloudcode-pa.sandbox.googleapis.com/v1internal:fetchAvailableModels" /\
    Status (fst r) = "active".
Proof.
  intros E w r.
  let v := eval vm_compute in (exchanges (snd r)) in
  match v with [?a; ?b] => exists a, b end.
  split; [vm_compute; reflexivity|]. split; [reflexivity|].
  split; [eexists; repeat split; reflexivity|].
  split; [|split; [reflexivity|vm_compute; reflexivity]].
  intros (resp & Hres & _ & Hstatus). simpl in Hres.
  injection Hres as <-. discriminate.
Qed.

(** ** C8: the map format *)

(** The float64 nearest to 0.4 (0x3FD999999999999A). *)
Lemma f64_decimal_4_10 : f64_decimal 4 10 = S754_finite false 7205759403792794 (-54).
Proof. vm_compute. reflexivity. Qed.

Lemma f64_mul_04_100 : f64_mul (f64_decimal 4 10) f64_100 = float64_of_int 40.
Proof. vm_compute. reflexivity. Qed.

Lemma mapQuota_Some entry quota :
  mapQuota entry = Some quota <->
  exists modelName info fraction,
    entry = (modelName, Some info) /\
    RemainingFraction info = Some fraction /\
    quota = {| Model := modelName;
               DisplayName := getDisplayName modelName;
               RemainingPercent := f64_mul fraction f64_100;
               ResetTime := match QuotaResetTime info with
                            | Some t => t
                            | None => ""
                            end |}.
Proof.
  destruct entry as [modelName [info|]]; simpl.
  - destruct (RemainingFraction info) as [fraction|] eqn:Hf; split.
    + intros [= <-]. eauto 10.
    + intros (m & i & f & [= <- <-] & Hf' & ->). congruence.
    + discriminate.
    + intros (m & i & f & [= <- <-] & Hf' & _). congruence.
  - split; [discriminate|]. intros (m & i & f & [=] & _).
Qed.

(** C8. When the quota call is answered with a 200 whose body does not yield
    a model in the array format and decodes in the map format with at least
    one model, the result is an "active" account quota whose model quotas are
    exactly the entries of the map that have a quota-info block with a
    remaining fraction, each with remaining percent = fraction * 100 in
    float64 (entries without quota info, or without a fraction, are skipped);
    a remaining fraction of 0.4 gives a remaining percent of exactly 40.0. *)
Theorem map_format_remaining_percent
    E endpoint email projectID accessToken w resp apiRespMap :
  httpDo E (exchanges w) (quotaRequest endpoint accessToken) = Ok resp ->
  BodyErr resp = None ->
  StatusCode resp = 200%Z ->
  match json_Unmarshal_Array E (BodyData resp) with
  | Some apiRespArray => ArrayModels apiRespArray = []
  | None => True
  end ->
  json_Unmarshal_Map E (BodyData resp) = Some apiRespMap ->
  MapModels apiRespMap <> [] ->
  exists quota,
    fst (callQuotaEndpoint E endpoint email projectID accessToken w) = Ok quota /\
    Status quota = "active" /\
    (forall mq,
       In mq (ModelQuotas quota) <->
       exists modelName info fraction,
         In (modelName, Some info) (MapModels apiRespMap) /\
         RemainingFraction info = Some fraction /\
         mq = {| Model := modelName;
                 DisplayName := getDisplayName modelName;
                 RemainingPercent := f64_mul fraction f64_100;
                 ResetTime := match QuotaResetTime info with
                              | Some t => t
                              | None => ""
                              end |}) /\
    (forall modelName info,
       In (modelName, Some info) (MapModels apiRespMap) ->
       RemainingFraction info = Some (f64_decimal 4 10) ->
       exists mq, In mq (ModelQuotas quota) /\ Model mq = modelName /\
                  RemainingPercent mq = float64_of_int 40).
Proof.
  intros Hdo Hbody Hstatus Harray Hmap Hne.
  assert (Hparsed : parsedQuotas E (BodyData resp)
                    = Some (collectQuotas mapQuota (MapModels apiRespMap))).
  { unfold parsedQuotas. rewrite Hmap.
    assert (Hpos : (0 <? length (MapModels apiRespMap))%nat = true)
      by (destruct (MapModels apiRespMap); [contradiction|reflexivity]).
    rewrite Hpos.
    destruct (json_Unmarshal_Array E (BodyData resp)) as [a|]; [|reflexivity].
    rewrite Harray. reflexivity. }
  assert (Hv : endpointVerdict E (Ok resp)
               = Ok (collectQuotas mapQuota (MapModels apiRespMap))).
  { unfold endpointVerdict. rewrite Hbody, Hstatus. simpl. rewrite Hparsed. reflexivity. }
  rewrite callQuotaEndpoint_run. unfold quotaExchange. simpl. rewrite Hdo, Hv.
  eexists. split; [reflexivity|]. split; [reflexivity|]. simpl.
  assert (Hin : forall mq,
             In mq (collectQuotas mapQuota (MapModels apiRespMap)) <->
             exists modelName info fraction,
               In (modelName, Some info) (MapModels apiRespMap) /\
               RemainingFraction info = Some fraction /\
               mq = {| Model := modelName;
                       DisplayName := getDisplayName modelName;
                       RemainingPercent := f64_mul fraction f64_100;
                       ResetTime := match QuotaResetTime info with
                                    | Some t => t
                                    | None => ""
                                    end |}).
  { intros mq. rewrite collectQuotas_In. split.
    - intros (entry & Hentry & Hq). apply mapQuota_Some in Hq.
      destruct Hq as (m & i & f & -> & Hf & ->). eauto 10.
    - intros (m & i & f & Hentry & Hf & ->). exists (m, Some i).
      split; [exact Hentry|]. apply mapQuota_Some. eauto 10. }
  split; [exact Hin|].
  intros modelName info Hentry Hf. eexists. split.
  - apply Hin. exists modelName, info, (f64_decimal 4 10). eauto.
  - split; [reflexivity|]. apply f64_mul_04_100.
Qed.

Lemma map_format_remaining_percent_witness :
  let E := sampleEnv (sampleScript [(200, "map")] endpoints) sampleNoHeaders in
  let w := sampleWorld [] in
  let endpoint := "https://daily-cloudcode-pa.googleapis.com/v1internal:fetchAvailableModels" in
  exists quota,
    fst (callQuotaEndpoint E endpoint "a@example.com" "project-1" "token" w) = Ok quota /\
    Status quota = "active" /\
    ModelQuotas quota =
      [ {| Model := "gemini-2.5-pro"; DisplayName := "Gemini 2.5 Pro";
           RemainingPercent := float64_of_int 40;
           ResetTime := "2030-01-01T00:00:00Z" |} ] /\
    exists mq, In mq (ModelQuotas quota) /\ Model mq = "gemini-2.5-pro" /\
               RemainingPercent mq = float64_of_int 40.
Proof.
  intros E w endpoint.
  destruct (map_format_remaining_percent E endpoint "a@example.com" "project-1" "token" w
              {| StatusCode := 200; Header := []; BodyData := "map"; BodyErr := None |}
              sampleMapBody)
    as (quota & Hq & Hs & _ & H40); try reflexivity; try exact I; try discriminate.
  exists quota. split; [exact Hq|]. split; [exact Hs|]. split.
  - vm_compute in Hq. injection Hq as <-. vm_compute. reflexivity.
  - eapply H40; [left; reflexivity|reflexivity].
Defined.

(** ** The aggregator *)

Section Aggregator.

Variable E : Env.

Lemma Run_result email projectID accessToken candidates lastError new quota :
  Run E email projectID accessToken candidates lastError new quota ->
  resultFor email projectID quota.
Proof.
  unfold resultFor, validStatus. induction 1; simpl; auto.
Qed.

Lemma fetchQuotaForAccount_result email projectID accessToken w :
  resultFor email projectID (fst (fetchQuotaForAccount E email projectID accessToken w)).
Proof.
  destruct (fetchQuotaForAccount_Run E email projectID accessToken w
              (fst (fetchQuotaForAccount E email projectID accessToken w))
              (snd (fetchQuotaForAccount E email projectID accessToken w)))
    as (new & _ & _ & HRun); [apply surjective_pairing|].
  eapply Run_result; eassumption.
Qed.

(** Every goroutine delivers a result for its own account, with a status. *)
Lemma quotaWorker_result a w :
  resultFor (email a) (projectID a) (fst (quotaWorker E a w)).
Proof.
  unfold quotaWorker.
  destruct (expired a && negb (String.eqb (refreshToken a) "")).
  - unfold bind at 1.
    destruct (refreshAccessToken E (refreshToken a) w) as [[[newToken expiresIn]|err] w1].
    + unfold bind.
      destruct (updateAuthToken E (authID a) newToken expiresIn w1) as [[] w2].
      apply fetchQuotaForAccount_result.
    + unfold resultFor, validStatus. simpl. auto.
  - destruct (expired a).
    + unfold resultFor, validStatus. simpl. auto.
    + apply fetchQuotaForAccount_result.
Qed.

(** The collecting loop appends one result per goroutine, in order. *)
Lemma collect_results tasks :
  forall accounts w,
  exists results,
    fst (rangeLoop (collect E) tasks accounts w) = accounts ++ results /\
    Forall2 (fun quota a => resultFor (email a) (projectID a) quota) results tasks.
Proof.
  induction tasks as [|a tasks IH]; intros accounts w.
  - exists []. simpl. rewrite app_nil_r. split; [reflexivity|constructor].
  - simpl rangeLoop. unfold bind at 1. unfold collect at 1. unfold bind at 1.
    pose proof (quotaWorker_result a w) as Hq.
    destruct (quotaWorker E a w) as [quota w1]. simpl in Hq. unfold ret at 1.
    destruct (IH (accounts ++ [quota]) w1) as (results & Hres & Hall).
    exists (quota :: results). split.
    + rewrite Hres, <- app_assoc. reflexivity.
    + constructor; assumption.
Qed.

(** One step of the statistics loop on an account with a valid status. *)
Lemma countStatus_step quota active inactive error :
  validStatus quota ->
  let '(active', inactive', error') := countStatus (active, inactive, error) quota in
  (active' + inactive' + error' = active + inactive + error + 1)%Z.
Proof.
  unfold countStatus. intros [Hs|[Hs|Hs]]; rewrite Hs; simpl; lia.
Qed.

(** The statistics loop counts every account with a valid status once. *)
Lemma countStatus_total accounts :
  forall active inactive error,
    Forall validStatus accounts ->
    let '(active', inactive', error') :=
      fold_left countStatus accounts (active, inactive, error) in
    (active' + inactive' + error' =
     active + inactive + error + Z.of_nat (length accounts))%Z.
Proof.
  induction accounts as [|quota accounts IH]; intros active inactive error Hall.
  - simpl. lia.
  - inversion Hall as [|? ? Hq Hrest]; subst.
    change (fold_left countStatus (quota :: accounts) (active, inactive, error))
      with (fold_left countStatus accounts (countStatus (active, inactive, error) quota)).
    pose proof (countStatus_step quota active inactive error Hq) as Hstep.
    destruct (countStatus (active, inactive, error) quota) as [[a1 i1] e1].
    specialize (IH a1 i1 e1 Hrest).
    destruct (fold_left countStatus accounts (a1, i1, e1)) as [[a' i'] e'].
    change (length (quota :: accounts)) with (S (length accounts)). lia.
Qed.

End Aggregator.

(** ** Selection and delivery order *)

Lemma Forall2_Permutation_r {A B} (P : A -> B -> Prop) l k k' :
  Forall2 P l k -> Permutation k k' ->
  exists l', Permutation l l' /\ Forall2 P l' k'.
Proof.
  intros Hall Hperm. revert l Hall.
  induction Hperm as [|y k k' _ IH|y1 y2 k|k1 k2 k3 _ IH1 _ IH2]; intros l Hall.
  - exists l. split; [reflexivity|exact Hall].
  - inversion Hall as [|x ? l0 ? Hx Hrest]; subst.
    destruct (IH l0 Hrest) as (l' & Hp & Hf).
    exists (x :: l'). split; [constructor; exact Hp|constructor; assumption].
  - inversion Hall as [|x1 ? l0 ? Hx1 Hrest]; subst.
    inversion Hrest as [|x2 ? l1 ? Hx2 Hrest']; subst.
    exists (x2 :: x1 :: l1). split; [apply perm_swap|repeat constructor; assumption].
  - destruct (IH1 l Hall) as (l1 & Hp1 & Hf1).
    destruct (IH2 l1 Hf1) as (l2 & Hp2 & Hf2).
    exists l2. split; [etransitivity; eassumption|exact Hf2].
Qed.

Section Selection.

Variable E : Env.

(** Whatever the scheduler picks, every goroutine delivers exactly once. *)
Lemma completionOrder_Permutation {A} n :
  forall running : list A,
    n = length running -> Permutation (completionOrder E n running) running.
Proof.
  induction n as [|n IH]; intros running Hlen.
  - destruct running; [reflexivity|discriminate].
  - destruct running as [|first rest]; [discriminate|].
    cbn [completionOrder]. set (l := first :: rest) in *.
    set (i := (sched E n mod length l)%nat).
    assert (Hi : (i < length l)%nat)
      by (apply Nat.mod_upper_bound; rewrite <- Hlen; discriminate).
    destruct (lookup_lt_is_Some_2 l i Hi) as [x Hx].
    rewrite (nth_lookup_Some l i first x Hx).
    rewrite (delete_Permutation l i x Hx) at 2.
    constructor. apply IH.
    rewrite length_delete by eauto. lia.
Qed.

(** The expiry check makes no HTTP exchange and leaves the store alone. *)
Lemma checkExpired_world expiredStr w :
  exchanges (snd (checkExpired E expiredStr w)) = exchanges w /\
  authManager (snd (checkExpired E expiredStr w)) = authManager w.
Proof.
  unfold checkExpired.
  destruct (String.eqb expiredStr ""); [split; reflexivity|].
  unfold bind, time_Now. simpl.
  destruct (time_Parse_RFC3339 E expiredStr); split; reflexivity.
Qed.

(** One step of the selection: an eligible record adds one entry, any other
    record adds none. *)
Lemma selectAuth_run auth antigravityAuths w :
  exists sel,
    fst (selectAuth E auth antigravityAuths w) = antigravityAuths ++ sel /\
    Forall2 selectedFrom (if eligible auth then [auth] else []) sel /\
    exchanges (snd (selectAuth E auth antigravityAuths w)) = exchanges w /\
    authManager (snd (selectAuth E auth antigravityAuths w)) = authManager w.
Proof.
  unfold selectAuth, eligible.
  destruct (isAntigravity auth); simpl.
  - unfold bind.
    pose proof (checkExpired_world (metadataString auth "expired") w) as [Hex Ham].
    destruct (checkExpired E (metadataString auth "expired") w) as [isExpired w1].
    simpl in Hex, Ham.
    destruct (String.eqb (metadataString auth "access_token") ""); simpl.
    + exists []. rewrite app_nil_r. repeat split; [constructor|assumption..].
    + eexists [_]. split; [reflexivity|]. split; [|split; assumption].
      constructor; [|constructor]. unfold selectedFrom. simpl. repeat split.
  - exists []. rewrite app_nil_r. repeat split. constructor.
Qed.

(** The selection keeps exactly the eligible records, in order, and makes no
    HTTP exchange. *)
Lemma selection_run allAuths :
  forall antigravityAuths w,
  exists sel,
    fst (rangeLoop (selectAuth E) allAuths antigravityAuths w) = antigravityAuths ++ sel /\
    Forall2 selectedFrom (List.filter eligible allAuths) sel /\
    exchanges (snd (rangeLoop (selectAuth E) allAuths antigravityAuths w)) = exchanges w.
Proof.
  induction allAuths as [|auth allAuths IH]; intros antigravityAuths w.
  - exists []. simpl. rewrite app_nil_r. repeat split. constructor.
  - simpl rangeLoop. unfold bind.
    destruct (selectAuth_run auth antigravityAuths w) as (sel1 & Hfst & Hsel1 & Hex & _).
    destruct (selectAuth E auth antigravityAuths w) as [acc w1]. simpl in Hfst, Hex.
    destruct (IH acc w1) as (sel2 & Hfst2 & Hsel2 & Hex2).
    exists (sel1 ++ sel2). split; [rewrite Hfst2, Hfst, <- app_assoc; reflexivity|].
    split; [|rewrite Hex2; exact Hex].
    simpl List.filter. destruct (eligible auth).
    + inversion Hsel1 as [|? a ? ? Ha Hnil]; subst. inversion Hnil; subst.
      simpl. constructor; assumption.
    + inversion Hsel1; subst. exact Hsel2.
Qed.

End Selection.

(** ** The report *)

(** A run that wrote a report passed the encoding test. *)
Ltac report_written H :=
  unfold time_Now, ret in H; cbv beta iota zeta in H;
  match type of H with
  | context [if encodable ?r then _ else _] => destruct (encodable r); [|discriminate H]
  end.

Section Report.

Variable E : Env.

(** What a 200 report is made of: the accounts are the results of the
    goroutines started for the eligible records, in delivery order, and the
    counters are those of the statistics loop. *)
Lemma GetAntigravityQuota_report w allAuths report w' :
  authManager w = Some allAuths ->
  GetAntigravityQuota E w = (JSON200 report, w') ->
  exists sel,
    Forall2 selectedFrom (List.filter eligible allAuths) sel /\
    Forall2 (fun quota a => resultFor (email a) (projectID a) quota)
            (Accounts report) (completionOrder E (length sel) sel) /\
    TotalAccounts report = Z.of_nat (length (Accounts report)) /\
    (ActiveAccounts report + InactiveAccounts report + ErrorAccounts report
     = Z.of_nat (length (Accounts report)))%Z.
Proof.
  intros Hauth Hrun.
  unfold GetAntigravityQuota, bind, getAuthManager in Hrun. rewrite Hauth in Hrun.
  destruct (selection_run E allAuths [] w) as (sel & Hsel & Hfrom & _).
  destruct (rangeLoop (selectAuth E) allAuths [] w) as [sel' w1].
  simpl in Hsel. subst sel'.
  destruct (collect_results E (completionOrder E (length sel) sel) [] w1)
    as (results & Hres & Hall).
  destruct (rangeLoop (collect E) (completionOrder E (length sel) sel) [] w1)
    as [accounts w2].
  simpl in Hres. subst accounts.
  assert (Hvalid : Forall validStatus results).
  { clear - Hall. induction Hall as [|q a qs l Hq _ IH]; constructor; [apply Hq|exact IH]. }
  pose proof (countStatus_total results 0 0 0 Hvalid) as Hcount.
  destruct (fold_left countStatus results (0, 0, 0)%Z) as [[active inactive] error].
  report_written Hrun. injection Hrun as <- _. simpl.
  exists sel. split; [exact Hfrom|]. split; [exact Hall|]. split; [reflexivity|]. lia.
Qed.

(** Without a credential manager the handler answers 503. *)
Lemma GetAntigravityQuota_unavailable w :
  authManager w = None ->
  GetAntigravityQuota E w = (JSON503 "auth manager unavailable", w).
Proof.
  intros Hauth. unfold GetAntigravityQuota, bind, getAuthManager. rewrite Hauth.
  reflexivity.
Qed.

End Report.

(** C3. In every report that the handler produces, the active, inactive and
    error counts add up to the total, the total is the number of entries of
    the accounts array, and every entry carries one of the three statuses
    "active", "inactive", "error". *)
Theorem report_counts_add_up E w report w' :
  GetAntigravityQuota E w = (JSON200 report, w') ->
  (ActiveAccounts report + InactiveAccounts report + ErrorAccounts report
   = TotalAccounts report)%Z /\
  TotalAccounts report = Z.of_nat (length (Accounts report)) /\
  Forall (fun quota => Status quota = "active" \/ Status quota = "inactive" \/
                       Status quota = "error") (Accounts report).
Proof.
  intros Hrun.
  destruct (authManager w) as [allAuths|] eqn:Hauth.
  - destruct (GetAntigravityQuota_report E w allAuths report w' Hauth Hrun)
      as (sel & _ & Hall & Htotal & Hsum).
    split; [rewrite Htotal; exact Hsum|]. split; [exact Htotal|].
    clear - Hall. induction Hall as [|q a qs l Hq _ IH]; constructor; [apply Hq|exact IH].
  - rewrite (GetAntigravityQuota_unavailable E w Hauth) in Hrun. discriminate.
Qed.

Lemma report_counts_add_up_witness :
  let E := sampleEnv (sampleScript [(403, "permission denied")] endpoints)
                     sampleTwoHeaders in
  let w := sampleWorld sampleStore in
  exists report w',
    GetAntigravityQuota E w = (JSON200 report, w') /\
    map Status (Accounts report) = ["inactive"; "active"] /\
    TotalAccounts report = 2%Z /\
    (ActiveAccounts report + InactiveAccounts report + ErrorAccounts report
     = TotalAccounts report)%Z.
Proof.
  intros E w.
  let v := eval vm_compute in (GetAntigravityQuota E w) in
  match v with
  | (JSON200 ?report, ?w') =>
      exists report, w';
      assert (Hrun : GetAntigravityQuota E w = (JSON200 report, w'))
        by (vm_compute; reflexivity)
  end.
  split; [exact Hrun|]. split; [reflexivity|]. split; [reflexivity|].
  exact (proj1 (report_counts_add_up E w _ _ Hrun)).
Defined.

(** ** C7: records without access token *)

Lemma eligible_token auth :
  eligible auth = true -> metadataString auth "access_token" <> "".
Proof.
  unfold eligible. intros H. apply andb_true_iff in H. destruct H as [_ H].
  apply negb_true_iff in H. apply String.eqb_neq. exact H.
Qed.

Lemma accounts_of_selected accounts order kept :
  Forall2 (fun quota a => resultFor (email a) (projectID a) quota) accounts order ->
  Forall2 selectedFrom kept order ->
  Forall2 accountOf accounts kept.
Proof.
  intros Hres. revert kept.
  induction Hres as [|quota a accounts order (Hs & He & Hp) _ IH]; intros kept Hsel.
  - inversion Hsel; subst. constructor.
  - inversion Hsel as [|auth ? kept' ? (Hemail & Hproject & _) Hrest]; subst.
    constructor; [|apply IH; exact Hrest].
    unfold accountOf. rewrite He, Hp, Hemail, Hproject. auto.
Qed.

(** C7. The accounts array of a report holds exactly one entry for each
    stored Antigravity record with a non-empty access token (in some order),
    and the total and the status counts count exactly these: a record with
    an empty access token has no entry and is counted nowhere. *)
Theorem empty_token_excluded E w allAuths report w' :
  authManager w = Some allAuths ->
  GetAntigravityQuota E w = (JSON200 report, w') ->
  exists kept,
    Permutation kept (List.filter eligible allAuths) /\
    Forall (fun auth => metadataString auth "access_token" <> "") kept /\
    Forall2 accountOf (Accounts report) kept /\
    TotalAccounts report = Z.of_nat (length (List.filter eligible allAuths)) /\
    (ActiveAccounts report + InactiveAccounts report + ErrorAccounts report
     = Z.of_nat (length (List.filter eligible allAuths)))%Z.
Proof.
  intros Hauth Hrun.
  destruct (GetAntigravityQuota_report E w allAuths report w' Hauth Hrun)
    as (sel & Hfrom & Hall & Htotal & Hsum).
  assert (Hperm : Permutation sel (completionOrder E (length sel) sel))
    by (symmetry; apply completionOrder_Permutation; reflexivity).
  destruct (Forall2_Permutation_r _ _ _ _ Hfrom Hperm) as (kept & Hkept & Hsel).
  pose proof (accounts_of_selected _ _ _ Hall Hsel) as Hacc.
  assert (Hlen : length (Accounts report) = length (List.filter eligible allAuths)).
  { rewrite (Forall2_length _ _ _ Hacc). symmetry. apply Permutation_length, Hkept. }
  exists kept. split; [symmetry; exact Hkept|]. split.
  - apply List.Forall_forall. intros auth Hin. apply eligible_token.
    apply (Permutation_in _ (Permutation_sym Hkept)) in Hin.
    apply List.filter_In in Hin. tauto.
  - split; [exact Hacc|]. rewrite <- Hlen. split; assumption.
Qed.

Lemma empty_token_excluded_witness :
  let E := sampleEnv (sampleScript [(403, "permission denied")] endpoints)
                     sampleTwoHeaders in
  let w := sampleWorld sampleStore in
  exists report w',
    authManager w = Some sampleStore /\
    GetAntigravityQuota E w = (JSON200 report, w') /\
    map (fun auth => metadataString auth "access_token") sampleStore
      = ["token-a"; ""; "token-c"; "token-d"] /\
    map Email (Accounts report) = ["c@example.com"; "a@example.com"] /\
    TotalAccounts report = 2%Z /\
    (ActiveAccounts report + InactiveAccounts report + ErrorAccounts report = 2)%Z.
Proof.
  intros E w.
  let v := eval vm_compute in (GetAntigravityQuota E w) in
  match v with
  | (JSON200 ?report, ?w') =>
      exists report, w';
      assert (Hrun : GetAntigravityQuota E w = (JSON200 report, w'))
        by (vm_compute; reflexivity)
  end.
  split; [reflexivity|]. split; [exact Hrun|].
  split; [vm_compute; reflexivity|]. split; [reflexivity|].
  destruct (empty_token_excluded E w sampleStore _ _ eq_refl Hrun)
    as (kept & _ & _ & _ & Htotal & Hsum).
  split; [exact Htotal|exact Hsum].
Defined.

(** ** C6: expired, and no refresh token *)

(** C6. For a stored Antigravity record with an access token, whose expiry
    marker parses to an instant before the time of the check and which has no
    refresh token, the selection makes an entry marked expired, and the
    goroutine of that entry, from any world, delivers an account quota with
    status "inactive" and a non-empty error text without making any HTTP
    exchange: neither the quota endpoints nor the header probe are called. *)
Theorem expired_without_refresh_token E auth antigravityAuths w expiredTime :
  isAntigravity auth = true ->
  metadataString auth "access_token" <> "" ->
  metadataString auth "refresh_token" = "" ->
  metadataString auth "expired" <> "" ->
  time_Parse_RFC3339 E (metadataString auth "expired") = Some expiredTime ->
  (expiredTime < clock E (ticks w))%Z ->
  exists a,
    fst (selectAuth E auth antigravityAuths w) = antigravityAuths ++ [a] /\
    expired a = true /\
    forall w1,
      Status (fst (quotaWorker E a w1)) = "inactive" /\
      Error (fst (quotaWorker E a w1)) <> "" /\
      Email (fst (quotaWorker E a w1)) = metadataString auth "email" /\
      exchanges (snd (quotaWorker E a w1)) = exchanges w1.
Proof.
  intros Hanti Htoken Hrefresh Hmarker Hparse Hpast.
  assert (Hcheck : checkExpired E (metadataString auth "expired") w = (true, tick w)).
  { unfold checkExpired. rewrite (eqb_empty_false _ Hmarker).
    unfold bind, time_Now. rewrite Hparse. unfold ret.
    apply Z.ltb_lt in Hpast. rewrite Hpast. reflexivity. }
  unfold selectAuth. rewrite Hanti. change (negb true) with false. cbv iota.
  unfold bind. rewrite Hcheck, (eqb_empty_false _ Htoken).
  eexists. split; [reflexivity|]. split; [reflexivity|].
  intros w1. unfold quotaWorker. simpl. rewrite Hrefresh. simpl.
  repeat split. discriminate.
Qed.

Lemma expired_without_refresh_token_witness :
  let E := sampleEnv (sampleScript [(200, "map")] endpoints) sampleTwoHeaders in
  let auth := sampleAuth "auth-3" "c@example.com" "token-c" "" "2020-01-01T00:00:00Z" in
  let w := sampleWorld [auth] in
  exists a,
    fst (selectAuth E auth [] w) = [a] /\
    Status (fst (quotaWorker E a w)) = "inactive" /\
    Error (fst (quotaWorker E a w))
      = "Access token expired and no refresh token available" /\
    exchanges (snd (quotaWorker E a w)) = [].
Proof.
  intros E auth w.
  destruct (expired_without_refresh_token E auth [] w 1577836800000000000%Z)
    as (a & Hsel & Hexp & Hworker);
    [reflexivity|vm_compute; discriminate|reflexivity|vm_compute; discriminate
    |reflexivity|reflexivity|].
  exists a. split; [exact Hsel|].
  destruct (Hworker w) as (Hs & _ & _ & Hx).
  split; [exact Hs|]. split; [|exact Hx].
  vm_compute in Hsel. injection Hsel as <-. reflexivity.
Defined.

(** * Further properties of the code *)

(** ** The array format *)

Lemma collectQuotas_arrayQuota models :
  collectQuotas arrayQuota models =
  map arrayEntry (List.filter (fun model => negb (RpmLimit model =? 0)%Z) models).
Proof.
  induction models as [|model models IH]; [reflexivity|].
  simpl. unfold arrayQuota at 1.
  destruct (RpmLimit model =? 0)%Z; simpl; rewrite IH; reflexivity.
Qed.

Lemma f64_25_of_100 :
  f64_mul (f64_div (float64_of_int 25) (float64_of_int 100)) f64_100 = float64_of_int 25.
Proof. vm_compute. reflexivity. Qed.

(** X1. When the quota call is answered with a 200 whose body decodes in the
    array format with at least one model, the map format is not consulted:
    the result is an "active" account quota without error text whose model
    quotas are, in order, the models with a nonzero rpm limit, each with
    remaining percent = remainingRpm / rpmLimit * 100 in float64; a model with
    limit 100 and 25 remaining gets exactly 25.0. *)
Theorem array_format_model_quotas
    E endpoint email projectID accessToken w resp apiRespArray :
  httpDo E (exchanges w) (quotaRequest endpoint accessToken) = Ok resp ->
  BodyErr resp = None ->
  StatusCode resp = 200%Z ->
  json_Unmarshal_Array E (BodyData resp) = Some apiRespArray ->
  ArrayModels apiRespArray <> [] ->
  exists quota,
    fst (callQuotaEndpoint E endpoint email projectID accessToken w) = Ok quota /\
    Status quota = "active" /\
    Error quota = "" /\
    Email quota = email /\ ProjectID quota = projectID /\
    ModelQuotas quota =
      map arrayEntry
          (List.filter (fun model => negb (RpmLimit model =? 0)%Z)
                       (ArrayModels apiRespArray)) /\
    (forall model,
       In model (ArrayModels apiRespArray) ->
       RpmLimit model = 100%Z -> RemainingRpm model = 25%Z ->
       exists mq, In mq (ModelQuotas quota) /\ Model mq = am_Model model /\
                  RemainingPercent mq = float64_of_int 25).
Proof.
  intros Hdo Hbody Hstatus Harray Hne.
  assert (Hv : endpointVerdict E (Ok resp)
               = Ok (collectQuotas arrayQuota (ArrayModels apiRespArray))).
  { unfold endpointVerdict. rewrite Hbody, Hstatus. simpl.
    unfold parsedQuotas. rewrite Harray.
    destruct (ArrayModels apiRespArray); [contradiction|reflexivity]. }
  rewrite callQuotaEndpoint_run. unfold quotaExchange. simpl. rewrite Hdo, Hv.
  eexists. split; [reflexivity|]. simpl.
  repeat (split; [reflexivity|]).
  split; [apply collectQuotas_arrayQuota|].
  intros model Hin Hlimit Hremaining. exists (arrayEntry model). split.
  - rewrite collectQuotas_arrayQuota. apply in_map, List.filter_In.
    split; [exact Hin|]. rewrite Hlimit. reflexivity.
  - split; [reflexivity|]. unfold arrayEntry. simpl.
    rewrite Hlimit, Hremaining. apply f64_25_of_100.
Qed.

Lemma array_format_model_quotas_witness :
  let E := sampleEnv2 (sampleScript [(200, "array")] endpoints) sampleNoHeaders in
  let w := sampleWorld [] in
  let endpoint := "https://daily-cloudcode-pa.googleapis.com/v1internal:fetchAvailableModels" in
  exists quota,
    fst (callQuotaEndpoint E endpoint "a@example.com" "project-1" "token" w) = Ok quota /\
    Status quota = "active" /\
    map (fun mq => (Model mq, DisplayName mq, RemainingPercent mq)) (ModelQuotas quota) =
      [ ("gemini-2.5-pro", "Gemini 2.5 Pro", float64_of_int 25);
        ("text-model-x", "text-model-x", float64_of_int 100) ].
Proof.
  intros E w endpoint.
  destruct (array_format_model_quotas E endpoint "a@example.com" "project-1" "token" w
              {| StatusCode := 200; Header := []; BodyData := "array"; BodyErr := None |}
              sampleArrayBody)
    as (quota & Hq & Hs & _ & _ & _ & Hm & _); try reflexivity; try discriminate.
  exists quota. split; [exact Hq|]. split; [exact Hs|].
  rewrite Hm. vm_compute. reflexivity.
Defined.

(** ** A body in neither format *)

Lemma length_append s1 s2 :
  String.length (s1 +:+ s2) = (String.length s1 + String.length s2)%nat.
Proof. induction s1 as [|c s1 IH]; simpl; [reflexivity|]. rewrite IH. reflexivity. Qed.

Lemma length_substring_0 n : forall s,
  (n <= String.length s)%nat -> String.length (String.substring 0 n s) = n.
Proof.
  induction n as [|n IH]; intros s Hn.
  - destruct s; reflexivity.
  - destruct s as [|c s]; simpl in *; [lia|]. rewrite IH by lia. reflexivity.
Qed.

(** The preview is the body when it has at most 500 bytes, and otherwise its
    first 500 bytes followed by three dots. *)
Lemma responsePreview_bound respBody :
  (String.length (responsePreview respBody) <= 503)%nat /\
  ((String.length respBody <= 500)%nat -> responsePreview respBody = respBody) /\
  ((500 < String.length respBody)%nat ->
   responsePreview respBody = String.substring 0 500 respBody +:+ "..." /\
   String.length (responsePreview respBody) = 503%nat).
Proof.
  unfold responsePreview.
  destruct (500 <? String.length respBody)%nat eqn:Hlong.
  - apply Nat.ltb_lt in Hlong.
    assert (Hlen : String.length (String.substring 0 500 respBody +:+ "...") = 503%nat).
    { rewrite length_append, length_substring_0 by lia. reflexivity. }
    split; [rewrite Hlen; lia|]. split; [lia|]. intros _. split; [reflexivity|exact Hlen].
  - apply Nat.ltb_ge in Hlong. split; [lia|]. split; [reflexivity|lia].
Qed.

(** X2. When the quota call is answered with a 200 whose body yields a model
    in neither format, the call fails with the parse error followed by a
    preview of the body: the body itself when it has at most 500 bytes,
    otherwise its first 500 bytes and three dots, so never more than 503
    bytes; in [fetchQuotaForAccount] this error ends the loop with status
    "error" unless its text contains one of the tested markers. *)
Theorem unparseable_body_error E endpoint email projectID accessToken w resp :
  httpDo E (exchanges w) (quotaRequest endpoint accessToken) = Ok resp ->
  BodyErr resp = None ->
  StatusCode resp = 200%Z ->
  match json_Unmarshal_Array E (BodyData resp) with
  | Some apiRespArray => ArrayModels apiRespArray = []
  | None => True
  end ->
  match json_Unmarshal_Map E (BodyData resp) with
  | Some apiRespMap => MapModels apiRespMap = []
  | None => True
  end ->
  exists preview,
    fst (callQuotaEndpoint E endpoint email projectID accessToken w) =
      Err ("parse response: failed to parse as array or map format. Response: "
           +:+ preview) /\
    (String.length preview <= 503)%nat /\
    ((String.length (BodyData resp) <= 500)%nat -> preview = BodyData resp) /\
    ((500 < String.length (BodyData resp))%nat ->
     preview = String.substring 0 500 (BodyData resp) +:+ "...").
Proof.
  intros Hdo Hbody Hstatus Harray Hmap.
  assert (Hparsed : parsedQuotas E (BodyData resp) = None).
  { unfold parsedQuotas.
    destruct (json_Unmarshal_Map E (BodyData resp)) as [m|]; [rewrite Hmap|];
      (destruct (json_Unmarshal_Array E (BodyData resp)) as [a|];
       [rewrite Harray|]; reflexivity). }
  exists (responsePreview (BodyData resp)). split.
  - rewrite callQuotaEndpoint_run. unfold quotaExchange. simpl. rewrite Hdo.
    unfold endpointVerdict. rewrite Hbody, Hstatus. simpl. rewrite Hparsed. reflexivity.
  - destruct (responsePreview_bound (BodyData resp)) as (H1 & H2 & H3).
    split; [exact H1|]. split; [exact H2|]. intros Hlong. apply H3, Hlong.
Qed.

Lemma unparseable_body_error_witness :
  let E := sampleEnv (sampleScript [(200, "<html>maintenance</html>")] endpoints)
                     sampleNoHeaders in
  let w := sampleWorld [] in
  let endpoint := "https://daily-cloudcode-pa.googleapis.com/v1internal:fetchAvailableModels" in
  fst (callQuotaEndpoint E endpoint "a@example.com" "project-1" "token" w) =
  Err ("parse response: failed to parse as array or map format. Response: "
       +:+ "<html>maintenance</html>").
Proof.
  intros E w endpoint.
  destruct (unparseable_body_error E endpoint "a@example.com" "project-1" "token" w
              {| StatusCode := 200; Header := []; BodyData := "<html>maintenance</html>";
                 BodyErr := None |})
    as (preview & Hq & _ & Hshort & _);
    [reflexivity|reflexivity|reflexivity|exact I|exact I|].
  rewrite Hq, Hshort; [reflexivity|]. vm_compute. lia.
Defined.

(** ** Display names *)

(** X3. [getDisplayName] returns a name unchanged exactly when it is not one
    of the eleven names it recognises, and a display name is never itself a
    recognised name: applying the lookup twice changes nothing. *)
Theorem getDisplayName_passthrough modelName :
  (getDisplayName modelName = modelName <-> ~ In modelName knownModels) /\
  getDisplayName (getDisplayName modelName) = getDisplayName modelName.
Proof.
  assert (Hknown : In modelName knownModels ->
                   getDisplayName modelName <> modelName /\
                   getDisplayName (getDisplayName modelName) = getDisplayName modelName).
  { intros Hin. simpl in Hin.
    repeat (destruct Hin as [<-|Hin]; [split; [discriminate|reflexivity]|]).
    contradiction. }
  assert (Hunknown : ~ In modelName knownModels -> getDisplayName modelName = modelName).
  { intros Hnot. unfold getDisplayName.
    repeat match goal with
           | |- context [String.eqb modelName ?k] =>
               destruct (String.eqb_spec modelName k) as [->|_];
               [exfalso; apply Hnot; simpl; tauto|]
           end.
    reflexivity. }
  destruct (In_dec string_dec modelName knownModels) as [Hin|Hnot].
  - destruct (Hknown Hin) as [Hne Hidem]. split; [|exact Hidem].
    split; [intros Heq; contradiction|intros Hnot; contradiction].
  - pose proof (Hunknown Hnot) as Heq. split; [|rewrite Heq; exact Heq].
    split; [intros _; exact Hnot|intros _; exact Heq].
Qed.

(** ** The header probe as a whole *)

Lemma Probes_requests email projectID accessToken models ps :
  Probes email projectID accessToken models ps ->
  map (fun x => requestModel (xreq x)) ps = map Some models /\
  Forall (fun x => accountRequest email projectID accessToken (xreq x) /\
                   URL (xreq x) = probeURL email projectID) ps.
Proof.
  induction 1 as [|modelName x models ps (t1 & t2 & Hreq) _ [IHm IHf]].
  - split; [reflexivity|constructor].
  - split.
    + simpl. rewrite IHm, Hreq. reflexivity.
    + constructor; [|exact IHf]. rewrite Hreq. unfold accountRequest. simpl.
      repeat split. right. reflexivity.
Qed.

(** X4. The header probe always makes exactly one generation call per model of
    its fixed list, in the order of the list, whatever the calls return (a
    failed call does not stop it); all go to the same address with the
    account's bearer token; the store is not touched.  It fails, with "no
    quota information extracted from headers", exactly when none of the
    exchanges carries valid rate-limit headers, and otherwise returns as many
    model quotas as there are such exchanges. *)
Theorem header_probe_calls E email projectID accessToken w :
  exists ps,
    exchanges (snd (fetchQuotaFromHeaders E email projectID accessToken w))
      = exchanges w ++ ps /\
    authManager (snd (fetchQuotaFromHeaders E email projectID accessToken w))
      = authManager w /\
    map (fun x => requestModel (xreq x)) ps = map Some modelsToCheck /\
    Forall (fun x => accountRequest email projectID accessToken (xreq x) /\
                     URL (xreq x) = probeURL email projectID) ps /\
    match fst (fetchQuotaFromHeaders E email projectID accessToken w) with
    | Ok quotas =>
        quotas <> [] /\ length quotas = length (List.filter (hasRateLimit E) ps)
    | Err err =>
        err = "no quota information extracted from headers" /\
        List.filter (hasRateLimit E) ps = []
    end.
Proof.
  destruct (fetchQuotaFromHeaders_run E email projectID accessToken w)
    as (ps & w' & Hrun & Hex & Ham & Hps).
  rewrite Hrun. simpl. exists ps.
  destruct (Probes_requests _ _ _ _ _ Hps) as [Hmodels Hreqs].
  pose proof (Probes_quotas E _ _ _ _ _ Hps) as Hlen.
  repeat (split; [assumption|]).
  destruct (collectQuotas (probeQuota E) ps) as [|q qs].
  - split; [reflexivity|].
    destruct (List.filter (hasRateLimit E) ps); [reflexivity|discriminate].
  - split; [discriminate|exact Hlen].
Qed.

(** ** The requests of one resolution *)

Lemma quota_calls_requests email projectID accessToken (candidates : list string) :
  forall qs n,
    incl candidates endpoints ->
    map xreq qs = map (fun endpoint => quotaRequest endpoint accessToken)
                      (firstn n candidates) ->
    Forall (fun x => accountRequest email projectID accessToken (xreq x) /\
                     toCandidate x) qs.
Proof.
  induction candidates as [|endpoint rest IH]; intros qs n Hincl Hmap.
  - rewrite firstn_nil in Hmap. destruct qs; [constructor|discriminate].
  - destruct n as [|n]; simpl in Hmap; [destruct qs; [constructor|discriminate]|].
    destruct qs as [|x qs]; [discriminate|]. injection Hmap as Hx Hrest.
    assert (Hin : In endpoint endpoints) by (apply Hincl; left; reflexivity).
    constructor.
    + unfold toCandidate. rewrite Hx. unfold accountRequest. simpl. repeat split; auto.
    + apply (IH qs n); [|exact Hrest]. intros e He. apply Hincl. right. exact He.
Qed.

(** X5. One call of [fetchQuotaForAccount] makes between one and three quota
    calls, to candidate endpoints, and then either nothing or the eight
    generation calls of one header probe: at most eleven HTTP requests.  Each
    is a POST that carries the account's bearer token; the credential store is
    left as it was. *)
Theorem resolution_requests_bounded E email projectID accessToken w :
  exists qs ps,
    exchanges (snd (fetchQuotaForAccount E email projectID accessToken w))
      = exchanges w ++ qs ++ ps /\
    authManager (snd (fetchQuotaForAccount E email projectID accessToken w))
      = authManager w /\
    (1 <= length qs <= 3)%nat /\
    (ps = [] \/ length ps = 8%nat) /\
    Forall (fun x => accountRequest email projectID accessToken (xreq x) /\
                     toCandidate x) qs /\
    Forall (fun x => accountRequest email projectID accessToken (xreq x) /\
                     URL (xreq x) = probeURL email projectID) ps.
Proof.
  destruct (fetchQuotaForAccount_Run E email projectID accessToken w
              (fst (fetchQuotaForAccount E email projectID accessToken w))
              (snd (fetchQuotaForAccount E email projectID accessToken w)))
    as (new & Hnew & Ham & HRun); [apply surjective_pairing|].
  destruct (Run_shape E _ _ _ _ _ _ _ HRun)
    as (qs & ps & -> & Hlen & Hne & Hmap & Hps & _ & _).
  exists qs, ps. split; [exact Hnew|]. split; [exact Ham|].
  assert (Hqs : qs <> []) by (apply Hne; discriminate).
  split; [destruct qs; [contradiction|simpl in *; lia]|].
  split.
  { destruct Hps as [->|Hps]; [left; reflexivity|right].
    symmetry. apply (Forall2_length _ _ _ Hps). }
  split.
  { eapply quota_calls_requests; [|exact Hmap]. intros e He; exact He. }
  destruct Hps as [->|Hps]; [constructor|].
  apply (Probes_requests _ _ _ _ _ Hps).
Qed.

(** ** What follows one quota call *)

(** X6. The first quota call that succeeds ends the resolution: when a call
    to a candidate endpoint yields model quotas (a 200 in one of the two
    formats), it is the last exchange and the account quota is "active" with
    exactly these model quotas and no error text. *)
Theorem success_ends_resolution
    E email projectID accessToken w quota w' pre x post quotas :
  fetchQuotaForAccount E email projectID accessToken w = (quota, w') ->
  exchanges w' = exchanges w ++ pre ++ x :: post ->
  toCandidate x ->
  endpointVerdict E (xres x) = Ok quotas ->
  post = [] /\
  Status quota = "active" /\ ModelQuotas quota = quotas /\ Error quota = "" /\
  Email quota = email /\ ProjectID quota = projectID.
Proof.
  intros Hrun Hex Hcand Hv.
  destruct (fetchQuotaForAccount_at _ _ _ _ _ _ _ _ _ _ Hrun Hex Hcand) as [_ Hfollow].
  unfold followsVerdict in Hfollow. rewrite Hv in Hfollow.
  destruct Hfollow as (-> & now & ->). repeat split.
Qed.

(** X7. An error without marker ends the resolution: when a call to a
    candidate endpoint fails with an error text that contains none of
    "unauthorized", "access token expired", "forbidden", "banned" and "404"
    (a failed round trip, an unreadable body, another status, an unparseable
    body), it is the last exchange -- the remaining candidates are not tried,
    the header probe is not run -- and the account quota has status "error"
    with that very text. *)
Theorem plain_error_ends_resolution
    E email projectID accessToken w quota w' pre x post err :
  fetchQuotaForAccount E email projectID accessToken w = (quota, w') ->
  exchanges w' = exchanges w ++ pre ++ x :: post ->
  toCandidate x ->
  endpointVerdict E (xres x) = Err err ->
  Contains err "unauthorized" = false ->
  Contains err "access token expired" = false ->
  Contains err "forbidden" = false ->
  Contains err "banned" = false ->
  Contains err "404" = false ->
  post = [] /\
  Status quota = "error" /\ Error quota = err /\ ModelQuotas quota = [].
Proof.
  intros Hrun Hex Hcand Hv H1 H2 H3 H4 H5.
  destruct (fetchQuotaForAccount_at _ _ _ _ _ _ _ _ _ _ Hrun Hex Hcand) as [_ Hfollow].
  unfold followsVerdict, unauthorizedText, forbiddenText in Hfollow.
  rewrite Hv, H1, H2, H3, H4, H5 in Hfollow. simpl in Hfollow.
  destruct Hfollow as (-> & now & ->). repeat split.
Qed.

(** X8. The header probe is triggered by the error text, not by the status:
    when a call to a candidate endpoint fails with a text that contains
    "forbidden" or "banned" and none of the unauthorized markers -- whatever
    the status -- no further candidate is tried, the eight calls of the header
    probe follow, and the account quota is "active" when one of them carries
    valid rate-limit headers and "inactive" otherwise, never "error". *)
Theorem forbidden_text_triggers_probe
    E email projectID accessToken w quota w' pre x post err :
  fetchQuotaForAccount E email projectID accessToken w = (quota, w') ->
  exchanges w' = exchanges w ++ pre ++ x :: post ->
  toCandidate x ->
  endpointVerdict E (xres x) = Err err ->
  Contains err "unauthorized" = false ->
  Contains err "access token expired" = false ->
  Contains err "forbidden" || Contains err "banned" = true ->
  length post = 8%nat /\
  Forall (fun y => URL (xreq y) = probeURL email projectID) post /\
  (List.filter (hasRateLimit E) post <> [] ->
   Status quota = "active" /\
   length (ModelQuotas quota) = length (List.filter (hasRateLimit E) post)) /\
  (List.filter (hasRateLimit E) post = [] ->
   Status quota = "inactive" /\
   Error quota =
     "Access forbidden and fallback failed: no quota information extracted from headers").
Proof.
  intros Hrun Hex Hcand Hv H1 H2 H3.
  destruct (fetchQuotaForAccount_at _ _ _ _ _ _ _ _ _ _ Hrun Hex Hcand) as [_ Hfollow].
  unfold followsVerdict, unauthorizedText, forbiddenText in Hfollow.
  rewrite Hv, H1, H2, H3 in Hfollow. simpl in Hfollow.
  destruct Hfollow as (Hps & now & Hquota).
  split; [symmetry; apply (Forall2_length _ _ _ Hps)|].
  split.
  { eapply Forall_impl; [apply (Probes_requests _ _ _ _ _ Hps)|].
    intros y [_ Hy]. exact Hy. }
  pose proof (Probes_quotas E _ _ _ _ _ Hps) as Hlen.
  destruct (collectQuotas (probeQuota E) post) as [|q qs]; subst quota; split.
  - intros Hsome. destruct (List.filter (hasRateLimit E) post);
      [contradiction|discriminate].
  - intros _. split; reflexivity.
  - intros _. split; [reflexivity|exact Hlen].
  - intros Hnone. rewrite Hnone in Hlen. discriminate.
Qed.

Lemma success_ends_resolution_witness :
  let E := sampleEnv (sampleScript [(404, "not found"); (200, "map")] endpoints)
                     sampleTwoHeaders in
  let w := sampleWorld [] in
  let r := fetchQuotaForAccount E "a@example.com" "project-1" "token" w in
  (exists pre x quotas,
     exchanges (snd r) = exchanges w ++ pre ++ [x] /\ toCandidate x /\
     endpointVerdict E (xres x) = Ok quotas /\ length quotas = 1%nat) /\
  Status (fst r) = "active" /\ length (ModelQuotas (fst r)) = 1%nat.
Proof.
  intros E w r.
  assert (Hrun : fetchQuotaForAccount E "a@example.com" "project-1" "token" w
                 = (fst r, snd r)) by apply surjective_pairing.
  assert (Hex : exists pre x quotas,
             exchanges (snd r) = exchanges w ++ pre ++ [x] /\ toCandidate x /\
             endpointVerdict E (xres x) = Ok quotas /\ length quotas = 1%nat).
  { let v := eval vm_compute in (exchanges (snd r)) in
    match v with
    | [?a; ?b] =>
        let q := eval vm_compute in (endpointVerdict E (xres b)) in
        match q with Ok ?qs => exists [a], b, qs end
    end.
    split; [vm_compute; reflexivity|]. split; [right; left; reflexivity|].
    split; vm_compute; reflexivity. }
  split; [exact Hex|].
  destruct Hex as (pre & x & quotas & Hex & Hcand & Hv & Hlen).
  destruct (success_ends_resolution E _ _ _ _ _ _ _ _ _ _ Hrun Hex Hcand Hv)
    as (_ & Hs & Hq & _).
  split; [exact Hs|]. rewrite Hq. exact Hlen.
Defined.

Lemma plain_error_ends_resolution_witness :
  let E := sampleEnv (sampleScript [(500, "internal error"); (200, "map")] endpoints)
                     sampleTwoHeaders in
  let w := sampleWorld [] in
  let r := fetchQuotaForAccount E "a@example.com" "project-1" "token" w in
  (exists x,
     exchanges (snd r) = exchanges w ++ [] ++ [x] /\ toCandidate x /\
     endpointVerdict E (xres x) = Err "API returned 500: internal error") /\
  Status (fst r) = "error" /\ Error (fst r) = "API returned 500: internal error".
Proof.
  intros E w r.
  assert (Hrun : fetchQuotaForAccount E "a@example.com" "project-1" "token" w
                 = (fst r, snd r)) by apply surjective_pairing.
  assert (Hex : exists x,
             exchanges (snd r) = exchanges w ++ [] ++ [x] /\ toCandidate x /\
             endpointVerdict E (xres x) = Err "API returned 500: internal error").
  { let v := eval vm_compute in (exchanges (snd r)) in
    match v with [?a] => exists a end.
    split; [vm_compute; reflexivity|]. split; [left; reflexivity|].
    vm_compute. reflexivity. }
  split; [exact Hex|].
  destruct Hex as (x & Hex & Hcand & Hv).
  destruct (plain_error_ends_resolution E _ _ _ _ _ _ _ _ _ _ Hrun Hex Hcand Hv)
    as (_ & Hs & He & _); try reflexivity.
  split; assumption.
Defined.

Lemma forbidden_text_triggers_probe_witness :
  let E := sampleEnv (sampleScript [(500, "account banned")] endpoints)
                     sampleTwoHeaders in
  let w := sampleWorld [] in
  let r := fetchQuotaForAccount E "a@example.com" "project-1" "token" w in
  (exists x post,
     exchanges (snd r) = exchanges w ++ [] ++ x :: post /\ toCandidate x /\
     endpointVerdict E (xres x) = Err "API returned 500: account banned" /\
     length (List.filter (hasRateLimit E) post) = 2%nat) /\
  Status (fst r) = "active" /\ length (ModelQuotas (fst r)) = 2%nat.
Proof.
  intros E w r.
  assert (Hrun : fetchQuotaForAccount E "a@example.com" "project-1" "token" w
                 = (fst r, snd r)) by apply surjective_pairing.
  assert (Hex : exists x post,
             exchanges (snd r) = exchanges w ++ [] ++ x :: post /\ toCandidate x /\
             endpointVerdict E (xres x) = Err "API returned 500: account banned" /\
             length (List.filter (hasRateLimit E) post) = 2%nat).
  { let v := eval vm_compute in (exchanges (snd r)) in
    match v with ?a :: ?l => exists a, l end.
    split; [vm_compute; reflexivity|]. split; [left; reflexivity|].
    split; vm_compute; reflexivity. }
  split; [exact Hex|].
  destruct Hex as (x & post & Hex & Hcand & Hv & Htwo).
  destruct (forbidden_text_triggers_probe E _ _ _ _ _ _ _ _ _ _ Hrun Hex Hcand Hv)
    as (_ & _ & Hsome & _); try reflexivity.
  destruct Hsome as [Hs Hl].
  { destruct (List.filter (hasRateLimit E) post); discriminate. }
  split; [exact Hs|]. rewrite Hl. exact Htwo.
Defined.

(** ** Token refresh *)

Section Refresh.

Variable E : Env.

Lemma refreshAccessToken_run refreshToken w :
  refreshAccessToken E refreshToken w =
  (refreshVerdict E (xres (refreshExchange E refreshToken w)),
   record (refreshExchange E refreshToken w) w).
Proof.
  unfold refreshAccessToken, bind, httpClient_Do, refreshExchange, refreshVerdict. simpl.
  destruct (httpDo E (exchanges w) (refreshRequest refreshToken)) as [resp|err];
    [|reflexivity].
  destruct (negb (StatusCode resp =? 200)%Z); [reflexivity|].
  destruct (json_Decode_Token E resp); reflexivity.
Qed.

(** [updateAuthToken] makes no HTTP exchange. *)
Lemma updateAuthToken_exchanges authID newAccessToken expiresIn w :
  exchanges (snd (updateAuthToken E authID newAccessToken expiresIn w)) = exchanges w.
Proof.
  unfold updateAuthToken, bind, getAuthManager.
  destruct (authManager w) as [auths|]; [|reflexivity].
  destruct (GetByID auths authID); reflexivity.
Qed.

End Refresh.

(** X9. When the token of an account is expired, a refresh token is stored
    and the refresh fails (the round trip fails, the token endpoint answers
    with another status than 200, or its body does not decode), the goroutine
    delivers status "inactive" with "Token refresh failed: " and the cause,
    after that single request to the token endpoint: the quota API is not
    called and the credential store is not touched. *)
Theorem refresh_failure_inactive E a w cause :
  expired a = true ->
  refreshToken a <> "" ->
  refreshVerdict E (xres (refreshExchange E (refreshToken a) w)) = Err cause ->
  Status (fst (quotaWorker E a w)) = "inactive" /\
  Error (fst (quotaWorker E a w)) = "Token refresh failed: " +:+ cause /\
  ModelQuotas (fst (quotaWorker E a w)) = [] /\
  exchanges (snd (quotaWorker E a w))
    = exchanges w ++ [refreshExchange E (refreshToken a) w] /\
  authManager (snd (quotaWorker E a w)) = authManager w /\
  (forall err, xres (refreshExchange E (refreshToken a) w) = Err err ->
     cause = "execute refresh request: " +:+ err) /\
  (forall resp, xres (refreshExchange E (refreshToken a) w) = Ok resp ->
     StatusCode resp <> 200%Z ->
     cause = "refresh token failed: status " +:+ Sprintf_d (StatusCode resp)
             +:+ ": " +:+ BodyData resp).
Proof.
  intros Hexp Hrt Hv.
  assert (Hw : quotaWorker E a w =
               (mkQuota (email a) (projectID a) "inactive" []
                  ("Token refresh failed: " +:+ cause) (clock E (ticks w)),
                tick (record (refreshExchange E (refreshToken a) w) w))).
  { unfold quotaWorker. rewrite Hexp, (eqb_empty_false _ Hrt).
    change (true && negb false) with true. cbv iota.
    unfold bind at 1. rewrite refreshAccessToken_run, Hv. reflexivity. }
  rewrite Hw. simpl. unfold refreshExchange in Hv. simpl in Hv.
  repeat (split; [reflexivity|]). split.
  - intros err Herr. unfold refreshVerdict in Hv. rewrite Herr in Hv. congruence.
  - intros resp Hresp Hstatus. unfold refreshVerdict in Hv. rewrite Hresp in Hv.
    apply Z.eqb_neq in Hstatus. rewrite Hstatus in Hv. simpl in Hv. congruence.
Qed.

(** X10. When the token of an account is expired, a refresh token is stored
    and the refresh succeeds, the goroutine goes on to the quota resolution
    with the new token: after the request to the token endpoint, every
    request it makes (one to three quota calls, then possibly the eight calls
    of a header probe) carries the new token as bearer, not the stored one,
    and the result is a result of the account. *)
Theorem refreshed_token_is_used E a w newToken expiresIn :
  expired a = true ->
  refreshToken a <> "" ->
  refreshVerdict E (xres (refreshExchange E (refreshToken a) w)) = Ok (newToken, expiresIn) ->
  exists rest,
    exchanges (snd (quotaWorker E a w))
      = exchanges w ++ refreshExchange E (refreshToken a) w :: rest /\
    (1 <= length rest <= 11)%nat /\
    Forall (fun x => accountRequest (email a) (projectID a) newToken (xreq x)) rest /\
    resultFor (email a) (projectID a) (fst (quotaWorker E a w)).
Proof.
  intros Hexp Hrt Hv.
  pose proof (updateAuthToken_exchanges E (authID a) newToken expiresIn
                (record (refreshExchange E (refreshToken a) w) w)) as Hupd.
  assert (Hw : quotaWorker E a w =
               fetchQuotaForAccount E (email a) (projectID a) newToken
                 (snd (updateAuthToken E (authID a) newToken expiresIn
                         (record (refreshExchange E (refreshToken a) w) w)))).
  { unfold quotaWorker. rewrite Hexp, (eqb_empty_false _ Hrt).
    change (true && negb false) with true. cbv iota.
    unfold bind at 1. rewrite refreshAccessToken_run, Hv.
    unfold bind at 1.
    destruct (updateAuthToken E (authID a) newToken expiresIn
                (record (refreshExchange E (refreshToken a) w) w)) as [[] w2].
    reflexivity. }
  rewrite Hw.
  set (w2 := snd (updateAuthToken E (authID a) newToken expiresIn
                    (record (refreshExchange E (refreshToken a) w) w))) in *.
  simpl in Hupd.
  destruct (resolution_requests_bounded E (email a) (projectID a) newToken w2)
    as (qs & ps & Hex & _ & Hqs & Hps & Hfq & Hfp).
  exists (qs ++ ps). split.
  - rewrite Hex, Hupd, <- app_assoc. reflexivity.
  - split.
    + rewrite length_app. destruct Hps as [->|Hps]; simpl; lia.
    + split; [|apply fetchQuotaForAccount_result].
      apply Forall_app. split.
      * eapply Forall_impl; [exact Hfq|]. intros x [Hx _]. exact Hx.
      * eapply Forall_impl; [exact Hfp|]. intros x [Hx _]. exact Hx.
Qed.

Lemma refresh_failure_inactive_witness :
  let E := sampleEnv (sampleScript [(200, "map")] endpoints) sampleTwoHeaders in
  let w := sampleWorld sampleStore in
  let r := quotaWorker E sampleExpired w in
  refreshVerdict E (xres (refreshExchange E "refresh-a" w))
    = Err "execute refresh request: connection refused" /\
  Status (fst r) = "inactive" /\
  Error (fst r) = "Token refresh failed: execute refresh request: connection refused" /\
  map (fun x => URL (xreq x)) (exchanges (snd r)) = ["https://oauth2.googleapis.com/token"].
Proof.
  intros E w r.
  assert (Hv : refreshVerdict E (xres (refreshExchange E (refreshToken sampleExpired) w))
               = Err "execute refresh request: connection refused") by reflexivity.
  split; [exact Hv|].
  destruct (refresh_failure_inactive E sampleExpired w _ eq_refl
              ltac:(discriminate) Hv) as (Hs & He & _ & Hx & _).
  split; [exact Hs|]. split; [exact He|].
  unfold r. rewrite Hx. reflexivity.
Defined.

Lemma refreshed_token_is_used_witness :
  let E := sampleEnv2 (sampleScript [(200, "map")] endpoints) sampleTwoHeaders in
  let w := sampleWorld sampleStore in
  let r := quotaWorker E sampleExpired w in
  refreshVerdict E (xres (refreshExchange E "refresh-a" w)) = Ok ("fresh-token", 3600%Z) /\
  map (fun x => Header_Get (ReqHeader (xreq x)) "Authorization") (exchanges (snd r))
    = [""; "Bearer fresh-token"] /\
  exists rest,
    exchanges (snd r) = exchanges w ++ refreshExchange E "refresh-a" w :: rest /\
    Forall (fun x => accountRequest "a@example.com" "project-1" "fresh-token" (xreq x)) rest.
Proof.
  intros E w r.
  assert (Hv : refreshVerdict E (xres (refreshExchange E (refreshToken sampleExpired) w))
               = Ok ("fresh-token", 3600%Z)) by reflexivity.
  split; [exact Hv|]. split; [vm_compute; reflexivity|].
  destruct (refreshed_token_is_used E sampleExpired w _ _ eq_refl
              ltac:(discriminate) Hv) as (rest & Hx & _ & Hall & _).
  exists rest. split; [exact Hx|exact Hall].
Defined.

(** ** The credential store *)






(** ** The handler as a whole *)

Section Whole.

Variable E : Env.

(** The selection leaves the credential store as it was. *)
Lemma selection_store allAuths :
  forall antigravityAuths w,
    authManager (snd (rangeLoop (selectAuth E) allAuths antigravityAuths w)) = authManager w.
Proof.
  induction allAuths as [|auth allAuths IH]; intros antigravityAuths w; [reflexivity|].
  simpl rangeLoop. unfold bind.
  destruct (selectAuth_run E auth antigravityAuths w) as (sel & _ & _ & _ & Ham).
  destruct (selectAuth E auth antigravityAuths w) as [acc w1]. simpl in Ham.
  rewrite IH. exact Ham.
Qed.

End Whole.

(** X13. A stored Antigravity record with an access token whose expiry marker
    is absent, does not parse as a timestamp, or is not before the time of the
    check is selected as not expired, and its goroutine is exactly the quota
    resolution with the stored access token: no refresh is attempted. *)
Theorem unexpired_uses_stored_token E auth antigravityAuths w :
  eligible auth = true ->
  metadataString auth "expired" = "" \/
  time_Parse_RFC3339 E (metadataString auth "expired") = None \/
  (exists expiredTime,
     time_Parse_RFC3339 E (metadataString auth "expired") = Some expiredTime /\
     (clock E (ticks w) <= expiredTime)%Z) ->
  exists a,
    fst (selectAuth E auth antigravityAuths w) = antigravityAuths ++ [a] /\
    expired a = false /\
    selectedFrom auth a /\
    forall w1,
      quotaWorker E a w1 =
      fetchQuotaForAccount E (metadataString auth "email")
        (metadataString auth "project_id") (metadataString auth "access_token") w1.
Proof.
  intros Heligible Hmarker.
  unfold eligible in Heligible. apply andb_true_iff in Heligible.
  destruct Heligible as [Hanti Htoken]. apply negb_true_iff in Htoken.
  assert (Hcheck : fst (checkExpired E (metadataString auth "expired") w) = false).
  { unfold checkExpired.
    destruct (String.eqb (metadataString auth "expired") "") eqn:Hempty; [reflexivity|].
    unfold bind, time_Now. simpl.
    destruct Hmarker as [Hm|[Hm|(t & Hm & Hle)]].
    - rewrite Hm in Hempty. discriminate.
    - rewrite Hm. reflexivity.
    - rewrite Hm. simpl. apply Z.ltb_ge. exact Hle. }
  unfold selectAuth. rewrite Hanti. change (negb true) with false. cbv iota.
  unfold bind.
  destruct (checkExpired E (metadataString auth "expired") w) as [isExpired w1].
  simpl in Hcheck. subst isExpired. rewrite Htoken.
  eexists. split; [reflexivity|]. split; [reflexivity|].
  split; [unfold selectedFrom; simpl; repeat split|].
  intros w2. unfold quotaWorker. reflexivity.
Qed.

Lemma unexpired_uses_stored_token_witness :
  let E := sampleEnv (sampleScript [(200, "map")] endpoints) sampleTwoHeaders in
  let auth := sampleAuth "auth-9" "d@example.com" "token-d" "refresh-d" "next tuesday" in
  let w := sampleWorld [auth] in
  eligible auth = true /\
  time_Parse_RFC3339 E (metadataString auth "expired") = None /\
  exists a,
    fst (selectAuth E auth [] w) = [a] /\ expired a = false /\
    quotaWorker E a w = fetchQuotaForAccount E "d@example.com" "project-1" "token-d" w.
Proof.
  intros E auth w.
  assert (Heligible : eligible auth = true) by (vm_compute; reflexivity).
  assert (Hparse : time_Parse_RFC3339 E (metadataString auth "expired") = None)
    by (vm_compute; reflexivity).
  split; [exact Heligible|]. split; [exact Hparse|].
  destruct (unexpired_uses_stored_token E auth [] w Heligible (or_intror (or_introl Hparse)))
    as (a & Hsel & Hexp & _ & Hworker).
  exists a. split; [exact Hsel|]. split; [exact Hexp|]. apply Hworker.
Defined.

Section Counts.

Variable E : Env.

(** The counters of a report are those of the statistics loop over its
    accounts. *)
Lemma GetAntigravityQuota_counts w report w' :
  GetAntigravityQuota E w = (JSON200 report, w') ->
  fold_left countStatus (Accounts report) (0, 0, 0)%Z
    = (ActiveAccounts report, InactiveAccounts report, ErrorAccounts report).
Proof.
  intros Hrun. unfold GetAntigravityQuota, bind, getAuthManager in Hrun.
  destruct (authManager w) as [allAuths|]; [|discriminate].
  destruct (rangeLoop (selectAuth E) allAuths [] w) as [sel w1].
  destruct (rangeLoop (collect E) (completionOrder E (length sel) sel) [] w1)
    as [accounts w2].
  destruct (fold_left countStatus accounts (0, 0, 0)%Z) as [[active inactive] error]
    eqn:Hfold.
  report_written Hrun. injection Hrun as <- _. simpl. exact Hfold.
Qed.

Lemma triple_eq (a b c a' b' c' : Z) :
  a = a' -> b = b' -> c = c' -> (a, b, c) = (a', b', c').
Proof. intros -> -> ->. reflexivity. Qed.

Lemma countStatus_counts accounts :
  forall active inactive error,
    fold_left countStatus accounts (active, inactive, error)
    = (active + countOf "active" accounts,
       inactive + countOf "inactive" accounts,
       error + countOf "error" accounts)%Z.
Proof.
  unfold countOf.
  induction accounts as [|quota accounts IH]; intros active inactive error.
  - simpl. apply triple_eq; lia.
  - change (fold_left countStatus (quota :: accounts) (active, inactive, error))
      with (fold_left countStatus accounts (countStatus (active, inactive, error) quota)).
    unfold countStatus at 2. simpl List.filter.
    destruct (String.eqb (Status quota) "active") eqn:Ha.
    { apply String.eqb_eq in Ha. rewrite Ha. simpl String.eqb. cbv iota.
      rewrite IH. change (length (quota :: ?l)) with (S (length l)).
      apply triple_eq; lia. }
    destruct (String.eqb (Status quota) "inactive") eqn:Hi.
    { apply String.eqb_eq in Hi. rewrite Hi. simpl String.eqb. cbv iota.
      rewrite IH. change (length (quota :: ?l)) with (S (length l)).
      apply triple_eq; lia. }
    destruct (String.eqb (Status quota) "error") eqn:He.
    { rewrite IH. change (length (quota :: ?l)) with (S (length l)).
      apply triple_eq; lia. }
    rewrite IH. reflexivity.
Qed.

End Counts.

(** X14. Each counter of a report counts exactly the accounts of the
    accounts array with its status: active_accounts those with status
    "active", inactive_accounts those with "inactive", error_accounts those
    with "error". *)
Theorem status_counts_exact E w report w' :
  GetAntigravityQuota E w = (JSON200 report, w') ->
  ActiveAccounts report = countOf "active" (Accounts report) /\
  InactiveAccounts report = countOf "inactive" (Accounts report) /\
  ErrorAccounts report = countOf "error" (Accounts report).
Proof.
  intros Hrun. pose proof (GetAntigravityQuota_counts E w report w' Hrun) as Hcounts.
  rewrite countStatus_counts in Hcounts. injection Hcounts as Ha Hi He.
  repeat split; symmetry; assumption.
Qed.

Lemma status_counts_exact_witness :
  let E := sampleEnv (sampleScript [(403, "permission denied")] endpoints)
                     sampleTwoHeaders in
  let w := sampleWorld sampleStore in
  exists report w',
    GetAntigravityQuota E w = (JSON200 report, w') /\
    map Status (Accounts report) = ["inactive"; "active"] /\
    ActiveAccounts report = 1%Z /\ InactiveAccounts report = 1%Z /\
    ErrorAccounts report = 0%Z.
Proof.
  intros E w.
  let v := eval vm_compute in (GetAntigravityQuota E w) in
  match v with
  | (JSON200 ?report, ?w') =>
      exists report, w';
      assert (Hrun : GetAntigravityQuota E w = (JSON200 report, w'))
        by (vm_compute; reflexivity)
  end.
  split; [exact Hrun|]. split; [reflexivity|].
  destruct (status_counts_exact E w _ _ Hrun) as (Ha & Hi & He).
  rewrite Ha, Hi, He. vm_compute. auto.
Defined.

(** ** The shape of every result *)

Section Shape.

Variable E : Env.

Lemma append_nonempty s1 s2 : s1 <> "" -> s1 +:+ s2 <> "".
Proof. destruct s1; [contradiction|discriminate]. Qed.

Lemma endpointVerdict_Err_nonempty r err : endpointVerdict E r = Err err -> err <> "".
Proof.
  unfold endpointVerdict. destruct r as [resp|e]; [|intros [= <-]; discriminate].
  destruct (BodyErr resp); [intros [= <-]; discriminate|].
  destruct (StatusCode resp =? 401)%Z; [intros [= <-]; discriminate|].
  destruct (StatusCode resp =? 403)%Z; [intros [= <-]; discriminate|].
  destruct (StatusCode resp =? 404)%Z; [intros [= <-]; discriminate|].
  destruct (negb (StatusCode resp =? 200)%Z); [intros [= <-]; discriminate|].
  destruct (parsedQuotas E (BodyData resp)); [discriminate|intros [= <-]; discriminate].
Qed.

Lemma Run_wellFormed email projectID accessToken candidates lastError new quota :
  Run E email projectID accessToken candidates lastError new quota ->
  match lastError with Some err => err <> "" | None => True end ->
  wellFormed quota.
Proof.
  unfold wellFormed.
  induction 1 as [ lastError now
                 | endpoint rest lastError x0 quotas now Hreq Hv
                 | endpoint rest lastError x0 err now Hreq Hv Hun
                 | endpoint rest lastError x0 err ps now Hreq Hv Hun Hfo Hps Hqs
                 | endpoint rest lastError x0 err ps now Hreq Hv Hun Hfo Hps Hqs
                 | endpoint rest lastError x0 err now Hreq Hv Hun Hfo H404
                 | endpoint rest lastError x0 err new quota Hreq Hv Hadv Hrun IH ];
    intros Hlast; simpl.
  - right. split; [right; reflexivity|]. split; [|reflexivity].
    destruct lastError; [exact Hlast|discriminate].
  - left. split; reflexivity.
  - right. split; [left; reflexivity|]. split; [discriminate|reflexivity].
  - left. split; reflexivity.
  - right. split; [left; reflexivity|]. split; [discriminate|reflexivity].
  - right. split; [right; reflexivity|]. split; [|reflexivity].
    eapply endpointVerdict_Err_nonempty; eassumption.
  - apply IH. eapply endpointVerdict_Err_nonempty; eassumption.
Qed.

Lemma fetchQuotaForAccount_wellFormed email projectID accessToken w :
  wellFormed (fst (fetchQuotaForAccount E email projectID accessToken w)).
Proof.
  destruct (fetchQuotaForAccount_Run E email projectID accessToken w
              (fst (fetchQuotaForAccount E email projectID accessToken w))
              (snd (fetchQuotaForAccount E email projectID accessToken w)))
    as (new & _ & _ & HRun); [apply surjective_pairing|].
  eapply Run_wellFormed; [eassumption|exact I].
Qed.

Lemma quotaWorker_wellFormed a w : wellFormed (fst (quotaWorker E a w)).
Proof.
  unfold quotaWorker.
  destruct (expired a && negb (String.eqb (refreshToken a) "")).
  - unfold bind at 1.
    destruct (refreshAccessToken E (refreshToken a) w) as [[[newToken expiresIn]|err] w1].
    + unfold bind.
      destruct (updateAuthToken E (authID a) newToken expiresIn w1) as [[] w2].
      apply fetchQuotaForAccount_wellFormed.
    + right. simpl. split; [left; reflexivity|]. split; [discriminate|reflexivity].
  - destruct (expired a).
    + right. simpl. split; [left; reflexivity|]. split; [discriminate|reflexivity].
    + apply fetchQuotaForAccount_wellFormed.
Qed.

Lemma collect_wellFormed tasks :
  forall accounts w,
    Forall wellFormed accounts ->
    Forall wellFormed (fst (rangeLoop (collect E) tasks accounts w)).
Proof.
  induction tasks as [|a tasks IH]; intros accounts w Hall; [exact Hall|].
  simpl rangeLoop. unfold bind at 1. unfold collect at 1. unfold bind at 1.
  pose proof (quotaWorker_wellFormed a w) as Hq.
  destruct (quotaWorker E a w) as [quota w1]. simpl in Hq. unfold ret at 1.
  apply IH. apply Forall_app. split; [exact Hall|]. constructor; [exact Hq|constructor].
Qed.

End Shape.

(** X15. Every account quota of a report is well formed: with status "active"
    it has no error text (its model quotas may be empty); with status
    "inactive" or "error" it has a non-empty error text and no model
    quotas. *)
Theorem report_accounts_well_formed E w report w' :
  GetAntigravityQuota E w = (JSON200 report, w') ->
  Forall (fun quota =>
            (Status quota = "active" /\ Error quota = "") \/
            ((Status quota = "inactive" \/ Status quota = "error") /\
             Error quota <> "" /\ ModelQuotas quota = []))
         (Accounts report).
Proof.
  intros Hrun. unfold GetAntigravityQuota, bind, getAuthManager in Hrun.
  destruct (authManager w) as [allAuths|]; [|discriminate].
  destruct (rangeLoop (selectAuth E) allAuths [] w) as [sel w1].
  pose proof (collect_wellFormed E (completionOrder E (length sel) sel) [] w1
                (List.Forall_nil _)) as Hall.
  destruct (rangeLoop (collect E) (completionOrder E (length sel) sel) [] w1)
    as [accounts w2].
  destruct (fold_left countStatus accounts (0, 0, 0)%Z) as [[active inactive] error].
  report_written Hrun. injection Hrun as <- _. exact Hall.
Qed.

Lemma report_accounts_well_formed_witness :
  let E := sampleEnv (sampleScript [(403, "permission denied")] endpoints)
                     sampleTwoHeaders in
  let w := sampleWorld sampleStore in
  exists report w',
    GetAntigravityQuota E w = (JSON200 report, w') /\
    map (fun quota => (Status quota, Error quota, length (ModelQuotas quota)))
        (Accounts report)
      = [ ("inactive", "Access token expired and no refresh token available", 0%nat);
          ("active", "", 2%nat) ] /\
    Forall (fun quota =>
              (Status quota = "active" /\ Error quota = "") \/
              ((Status quota = "inactive" \/ Status quota = "error") /\
               Error quota <> "" /\ ModelQuotas quota = []))
           (Accounts report).
Proof.
  intros E w.
  let v := eval vm_compute in (GetAntigravityQuota E w) in
  match v with
  | (JSON200 ?report, ?w') =>
      exists report, w';
      assert (Hrun : GetAntigravityQuota E w = (JSON200 report, w'))
        by (vm_compute; reflexivity)
  end.
  split; [exact Hrun|]. split; [reflexivity|].
  exact (report_accounts_well_formed E w _ _ Hrun).
Defined.

(** ** When the report is written *)







(** ** How many requests the handler makes *)

Section Budget.

Variable E : Env.

Lemma quotaWorker_budget a w :
  exists new,
    exchanges (snd (quotaWorker E a w)) = exchanges w ++ new /\
    (length new <= 12)%nat.
Proof.
  unfold quotaWorker.
  destruct (expired a && negb (String.eqb (refreshToken a) "")).
  - unfold bind at 1. rewrite refreshAccessToken_run.
    set (x := refreshExchange E (refreshToken a) w).
    destruct (refreshVerdict E (xres x)) as [[newToken expiresIn]|err].
    + unfold bind at 1.
      pose proof (updateAuthToken_exchanges E (authID a) newToken expiresIn (record x w))
        as Hupd.
      destruct (updateAuthToken E (authID a) newToken expiresIn (record x w)) as [[] w2].
      simpl in Hupd.
      destruct (resolution_requests_bounded E (email a) (projectID a) newToken w2)
        as (qs & ps & Hex & _ & Hqs & Hps & _).
      exists (x :: qs ++ ps). split.
      * rewrite Hex, Hupd, <- app_assoc. reflexivity.
      * simpl. rewrite length_app. destruct Hps as [->|Hps]; simpl; lia.
    + exists [x]. split; [reflexivity|simpl; lia].
  - destruct (expired a).
    + exists []. simpl. rewrite app_nil_r. split; [reflexivity|lia].
    + destruct (resolution_requests_bounded E (email a) (projectID a) (accessToken a) w)
        as (qs & ps & Hex & _ & Hqs & Hps & _).
      exists (qs ++ ps). split; [exact Hex|].
      rewrite length_app. destruct Hps as [->|Hps]; simpl; lia.
Qed.

Lemma collect_budget tasks :
  forall accounts w,
  exists new,
    exchanges (snd (rangeLoop (collect E) tasks accounts w)) = exchanges w ++ new /\
    (length new <= 12 * length tasks)%nat.
Proof.
  induction tasks as [|a tasks IH]; intros accounts w.
  - exists []. simpl. rewrite app_nil_r. split; [reflexivity|lia].
  - simpl rangeLoop. unfold bind at 1. unfold collect at 1. unfold bind at 1.
    destruct (quotaWorker_budget a w) as (new1 & Hex1 & Hlen1).
    destruct (quotaWorker E a w) as [quota w1]. simpl in Hex1. unfold ret at 1.
    destruct (IH (accounts ++ [quota]) w1) as (new2 & Hex2 & Hlen2).
    exists (new1 ++ new2). split.
    + rewrite Hex2, Hex1, <- app_assoc. reflexivity.
    + rewrite length_app. simpl length. lia.
Qed.

End Budget.

(** X16. One call of the handler makes at most twelve HTTP requests per
    stored Antigravity record with an access token (one refresh, three quota
    calls, eight probe calls) and none for any other record; in particular it
    makes no request at all when no stored record is eligible. *)
Theorem handler_request_budget E w allAuths :
  authManager w = Some allAuths ->
  exists new,
    exchanges (snd (GetAntigravityQuota E w)) = exchanges w ++ new /\
    (length new <= 12 * length (List.filter eligible allAuths))%nat.
Proof.
  intros Hauth. unfold GetAntigravityQuota, bind, getAuthManager. rewrite Hauth.
  destruct (selection_run E allAuths [] w) as (sel & Hsel & Hfrom & Hex).
  destruct (rangeLoop (selectAuth E) allAuths [] w) as [sel' w1].
  simpl in Hsel, Hex. subst sel'.
  destruct (collect_budget E (completionOrder E (length sel) sel) [] w1)
    as (new & Hnew & Hlen).
  destruct (rangeLoop (collect E) (completionOrder E (length sel) sel) [] w1)
    as [accounts w2].
  simpl in Hnew.
  destruct (fold_left countStatus accounts (0, 0, 0)%Z) as [[active inactive] error].
  rewrite (Permutation_length (completionOrder_Permutation E (length sel) sel eq_refl))
    in Hlen.
  rewrite <- (Forall2_length _ _ _ Hfrom) in Hlen.
  unfold time_Now, ret. cbv beta iota zeta.
  match goal with
  | |- context [if encodable ?r then _ else _] => destruct (encodable r)
  end; simpl; (exists new; split; [rewrite Hnew, Hex; reflexivity|exact Hlen]).
Qed.

Lemma handler_request_budget_witness :
  let E := sampleEnv (sampleScript [(403, "permission denied")] endpoints)
                     sampleTwoHeaders in
  let w := sampleWorld sampleStore in
  authManager w = Some sampleStore /\
  length (List.filter eligible sampleStore) = 2%nat /\
  length (exchanges (snd (GetAntigravityQuota E w))) = 9%nat /\
  exists new,
    exchanges (snd (GetAntigravityQuota E w)) = exchanges w ++ new /\
    (length new <= 24)%nat.
Proof.
  intros E w. split; [reflexivity|]. split; [vm_compute; reflexivity|].
  split; [vm_compute; reflexivity|].
  exact (handler_request_budget E w sampleStore eq_refl).
Defined.

(** X17. When no stored record is an Antigravity record with an access token
    (in particular when the store is empty), the report is empty: no
    accounts, all four counters zero; and the store is left as it was. *)
Theorem no_eligible_record_empty_report E w allAuths :
  authManager w = Some allAuths ->
  List.filter eligible allAuths = [] ->
  exists now,
    fst (GetAntigravityQuota E w) =
      JSON200 {| TotalAccounts := 0; ActiveAccounts := 0; InactiveAccounts := 0;
                 ErrorAccounts := 0; Accounts := []; ResponseLastUpdated := now |} /\
    exchanges (snd (GetAntigravityQuota E w)) = exchanges w /\
    authManager (snd (GetAntigravityQuota E w)) = authManager w.
Proof.
  intros Hauth Hnone. unfold GetAntigravityQuota, bind, getAuthManager. rewrite Hauth.
  destruct (selection_run E allAuths [] w) as (sel & Hsel & Hfrom & Hex).
  pose proof (selection_store E allAuths [] w) as Hstore.
  destruct (rangeLoop (selectAuth E) allAuths [] w) as [sel' w1].
  simpl in Hsel, Hex, Hstore. subst sel'.
  rewrite Hnone in Hfrom. inversion Hfrom; subst. simpl.
  eexists. split; [reflexivity|]. split; [exact Hex|]. rewrite Hstore. exact Hauth.
Qed.

Lemma no_eligible_record_empty_report_witness :
  let E := sampleEnv (sampleScript [(200, "map")] endpoints) sampleTwoHeaders in
  let store := [ sampleAuth "auth-2" "b@example.com" "" "refresh-b" "";
                 {| ID := "auth-4"; Provider := "gemini"; Metadata := None |} ] in
  let w := sampleWorld store in
  List.filter eligible store = [] /\
  exists now,
    fst (GetAntigravityQuota E w) =
      JSON200 {| TotalAccounts := 0; ActiveAccounts := 0; InactiveAccounts := 0;
                 ErrorAccounts := 0; Accounts := []; ResponseLastUpdated := now |}.
Proof.
  intros E store w.
  assert (Hnone : List.filter eligible store = []) by (vm_compute; reflexivity).
  split; [exact Hnone|].
  destruct (no_eligible_record_empty_report E w store eq_refl Hnone) as (now & Hr & _).
  exists now. exact Hr.
Defined.

(** ** Which records are resolved *)

(** When a stored record is eligible, in terms of its fields. *)
Lemma eligible_spec auth :
  eligible auth = true <->
  (Provider auth = "antigravity" \/
   metadataLookup auth "type" = Some (VString "antigravity")) /\
  exists token, token <> "" /\ metadataLookup auth "access_token" = Some (VString token).
Proof.
  unfold eligible, isAntigravity, metadataString, metadataLookup.
  rewrite andb_true_iff, negb_true_iff.
  destruct (Metadata auth) as [m|].
  - split.
    + intros [Hanti Htoken]. split.
      * destruct (String.eqb_spec (Provider auth) "antigravity") as [Hp|_]; [left; exact Hp|].
        right. destruct (m !! "type") as [[| | |t]|]; simpl in Hanti; try discriminate.
        apply String.eqb_eq in Hanti. congruence.
      * destruct (m !! "access_token") as [[| | |t]|]; simpl in Htoken; try discriminate.
        exists t. split; [|reflexivity]. apply String.eqb_neq. exact Htoken.
    + intros [Hanti (token & Hne & Htoken)]. split.
      * destruct Hanti as [Hp|Ht].
        -- rewrite Hp. reflexivity.
        -- rewrite Ht. simpl. destruct (String.eqb (Provider auth) "antigravity"); reflexivity.
      * rewrite Htoken. simpl. apply String.eqb_neq. exact Hne.
  - split.
    + intros [_ Htoken]. discriminate.
    + intros [_ (token & _ & Htoken)]. discriminate.
Qed.

Lemma app_singleton_neq {A} (l : list A) (a : A) : l ++ [a] <> l.
Proof.
  intros H. apply (f_equal length) in H. rewrite length_app in H. simpl in H. lia.
Qed.

(** X18. One pass of the selection loop, [selectAuth], either appends exactly
    one entry to the selected accounts or leaves them as they are.  It
    appends -- an entry carrying the record's ID and its metadata strings
    (email, project, access and refresh token) -- exactly when the record is an
    Antigravity record, by its provider field or by a string "antigravity"
    under the metadata key "type", and its metadata holds a non-empty string
    under "access_token"; a record with a nil metadata map, or whose access
    token is absent, empty or not a string, leaves the selection unchanged.
    Either way the pass makes no HTTP exchange. *)
Theorem selectAuth_appends_iff E auth antigravityAuths w :
  let selected := fst (selectAuth E auth antigravityAuths w) in
  let takesPart :=
    (Provider auth = "antigravity" \/
     metadataLookup auth "type" = Some (VString "antigravity")) /\
    exists token,
      token <> "" /\ metadataLookup auth "access_token" = Some (VString token) in
  ((exists a, selected = antigravityAuths ++ [a] /\ selectedFrom auth a) <-> takesPart) /\
  (selected = antigravityAuths <-> ~ takesPart) /\
  exchanges (snd (selectAuth E auth antigravityAuths w)) = exchanges w.
Proof.
  intros selected takesPart.
  destruct (selectAuth_run E auth antigravityAuths w) as (sel & Hfst & Hsel & Hex & _).
  fold selected in Hfst.
  pose proof (eligible_spec auth) as Hspec. fold takesPart in Hspec.
  split; [|split; [|exact Hex]].
  - destruct (eligible auth).
    + inversion Hsel as [|? a ? ? Ha Hnil]; subst. inversion Hnil; subst.
      split; [intros _; apply Hspec; reflexivity|]. intros _. exists a. split; assumption.
    + inversion Hsel; subst. rewrite app_nil_r in Hfst. split.
      * intros (a & Ha & _). rewrite Hfst in Ha. symmetry in Ha.
        destruct (app_singleton_neq _ _ Ha).
      * intros Htakes. apply Hspec in Htakes. discriminate.
  - destruct (eligible auth).
    + inversion Hsel as [|? a ? ? Ha Hnil]; subst. inversion Hnil; subst. split.
      * intros Hsame. rewrite Hfst in Hsame. destruct (app_singleton_neq _ _ Hsame).
      * intros Hnot. destruct Hnot. apply Hspec. reflexivity.
    + inversion Hsel; subst. rewrite app_nil_r in Hfst. split; [|intros _; exact Hfst].
      intros _ Htakes. apply Hspec in Htakes. discriminate.
Qed.

(** ** How one quota call fails *)

(** X19. Every failed quota call makes exactly one exchange and reads no
    clock; its error text is fixed by the round trip: "execute request: e"
    when the round trip fails; "read response: e" when the body cannot be
    read, whatever the status (even 200 or 401); otherwise "unauthorized:
    access token expired" on 401, "forbidden: " and the body on 403, "404:
    endpoint not found" on 404, and "API returned N: " and the body on any
    other status than 200. *)
Theorem quota_call_failure E endpoint email projectID accessToken w :
  let x := quotaExchange E endpoint accessToken w in
  let call := callQuotaEndpoint E endpoint email projectID accessToken w in
  (forall err, fst call = Err err -> snd call = record x w) /\
  (forall e, xres x = Err e -> fst call = Err ("execute request: " +:+ e)) /\
  (forall resp e, xres x = Ok resp -> BodyErr resp = Some e ->
     fst call = Err ("read response: " +:+ e)) /\
  (forall resp, xres x = Ok resp -> BodyErr resp = None ->
     (StatusCode resp = 401%Z -> fst call = Err "unauthorized: access token expired") /\
     (StatusCode resp = 403%Z -> fst call = Err ("forbidden: " +:+ BodyData resp)) /\
     (StatusCode resp = 404%Z -> fst call = Err "404: endpoint not found") /\
     (StatusCode resp <> 200%Z -> StatusCode resp <> 401%Z ->
      StatusCode resp <> 403%Z -> StatusCode resp <> 404%Z ->
      fst call = Err ("API returned " +:+ Sprintf_d (StatusCode resp) +:+ ": "
                      +:+ BodyData resp))).
Proof.
  intros x call.
  assert (Hcall : call = match endpointVerdict E (xres x) with
                         | Err err => (Err err, record x w)
                         | Ok quotas =>
                             (Ok (mkQuota email projectID "active" quotas ""
                                    (clock E (ticks w))), tick (record x w))
                         end)
    by (unfold call; rewrite callQuotaEndpoint_run; reflexivity).
  rewrite Hcall. clear Hcall. split; [|split; [|split]].
  - intros err. destruct (endpointVerdict E (xres x)); [discriminate|reflexivity].
  - intros e ->. reflexivity.
  - intros resp e -> Hbody. simpl. rewrite Hbody. reflexivity.
  - intros resp -> Hbody. simpl. rewrite Hbody. repeat split.
    + intros ->. reflexivity.
    + intros ->. reflexivity.
    + intros ->. reflexivity.
    + intros H200 H401 H403 H404.
      apply Z.eqb_neq in H200, H401, H403, H404.
      rewrite H200, H401, H403, H404. reflexivity.
Qed.
